(** * Text-to-SQL pipeline: a shallow embedding of [text_to_sql.py] and
    [database.py], and the properties of the specification settled on it.

    Python [str] values are sequences of Unicode code points; they are
    embedded as [list N].  Literals of the source are written as they are
    in the source and decoded from UTF-8 by [py]. *)

From Stdlib Require Import List NArith ZArith Bool Lia Ascii String.
From Stdlib Require Import Numbers.DecimalString.
Import ListNotations.

Open Scope N_scope.
Open Scope list_scope.

(** ** Python strings *)

Definition str := list N.

(** UTF-8 decoding of the bytes of a literal (well-formed input only). *)
Fixpoint utf8_decode (bs : list N) : str :=
  match bs with
  | [] => []
  | b0 :: r0 =>
    if b0 <? 128 then b0 :: utf8_decode r0
    else
      match r0 with
      | [] => []
      | b1 :: r1 =>
        if b0 <? 224 then ((b0 - 192) * 64 + (b1 - 128)) :: utf8_decode r1
        else
          match r1 with
          | [] => []
          | b2 :: r2 =>
            if b0 <? 240
            then ((b0 - 224) * 4096 + (b1 - 128) * 64 + (b2 - 128))
                   :: utf8_decode r2
            else
              match r2 with
              | [] => []
              | b3 :: r3 =>
                ((b0 - 240) * 262144 + (b1 - 128) * 4096
                 + (b2 - 128) * 64 + (b3 - 128)) :: utf8_decode r3
              end
          end
      end
  end.

Definition py (s : string) : str :=
  utf8_decode (map N_of_ascii (list_ascii_of_string s)).

(** [a == b] on strings. *)
Fixpoint str_eqb (a b : str) : bool :=
  match a, b with
  | [], [] => true
  | x :: a', y :: b' => (x =? y) && str_eqb a' b'
  | _, _ => false
  end.

(** [s.startswith(p)] *)
Fixpoint startswith (p s : str) : bool :=
  match p, s with
  | [], _ => true
  | _ :: _, [] => false
  | x :: p', y :: s' => (x =? y) && startswith p' s'
  end.

(** [needle in hay] *)
Fixpoint contains (needle hay : str) : bool :=
  startswith needle hay ||
  match hay with
  | [] => false
  | _ :: t => contains needle t
  end.

(** [s.endswith(p)] *)
Definition endswith (p s : str) : bool :=
  startswith (rev p) (rev s).

(** [any(word in s for word in words)] *)
Definition any_in (words : list str) (s : str) : bool :=
  existsb (fun w => contains w s) words.

(** ** The Unicode character database

    Case mappings, whitespace and digits of ASCII code points and of the
    CJK Unified Ideographs (U+4E00..U+9FFF, which have no case and are
    neither whitespace nor digits) are written out.  For every other code
    point the tables of the interpreter's Unicode database are a parameter
    of the development. *)

Definition is_ascii (c : N) : bool := c <? 128.
Definition is_cjk (c : N) : bool := (19968 <=? c) && (c <=? 40959).
Definition is_ascii_lower (c : N) : bool := (97 <=? c) && (c <=? 122).
Definition is_ascii_upper (c : N) : bool := (65 <=? c) && (c <=? 90).

Definition ascii_toupper (c : N) : N := if is_ascii_lower c then c - 32 else c.
Definition ascii_tolower (c : N) : N := if is_ascii_upper c then c + 32 else c.

Class UnicodeDB := {
  (** full uppercase mapping of a code point (one to three code points) *)
  upper_other : N -> str;
  (** full lowercase mapping of a code point in its context (the text
      before it and the text after it: the final-sigma rule reads both) *)
  lower_other : str -> N -> str -> str;
  (** general category Nd (decimal digit) *)
  digit_other : N -> bool;
  (** no uppercase mapping yields a lowercase ASCII letter *)
  upper_other_cased :
    forall c x, is_ascii c = false -> In x (upper_other c) ->
                is_ascii_lower x = false
}.

(** A database in which every code point outside ASCII is caseless and
    no digit: enough for texts of ASCII and CJK ideographs. *)
#[export, refine] Instance plain_db : UnicodeDB := {|
  upper_other := fun c => [c];
  lower_other := fun _ c _ => [c];
  digit_other := fun _ => false
|}.
Proof.
  intros c x Hc [<- | []].
  unfold is_ascii in Hc. unfold is_ascii_lower.
  apply N.ltb_ge in Hc.
  destruct (N.leb_spec c 122); [lia | apply andb_false_r].
Defined.

(** [Py_UNICODE_ISSPACE]: the class of [str.strip()] and of [\s]. *)
Definition is_space (c : N) : bool :=
  ((9 <=? c) && (c <=? 13)) || ((28 <=? c) && (c <=? 32))
  || (c =? 133) || (c =? 160) || (c =? 5760)
  || ((8192 <=? c) && (c <=? 8202))
  || (c =? 8232) || (c =? 8233) || (c =? 8239) || (c =? 8287)
  || (c =? 12288).

Section Strings.
Context {U : UnicodeDB}.

(** [\d] of a [str] pattern. *)
Definition is_digit (c : N) : bool :=
  if is_ascii c then (48 <=? c) && (c <=? 57)
  else if is_cjk c then false
  else digit_other c.

Definition upper_char (c : N) : str :=
  if is_ascii c then [ascii_toupper c]
  else if is_cjk c then [c]
  else upper_other c.

(** [s.upper()] *)
Definition upper (s : str) : str := flat_map upper_char s.

Definition lower_char (before : str) (c : N) (after : str) : str :=
  if is_ascii c then [ascii_tolower c]
  else if is_cjk c then [c]
  else lower_other before c after.

Fixpoint lower_from (before s : str) : str :=
  match s with
  | [] => []
  | c :: rest => lower_char before c rest ++ lower_from (before ++ [c]) rest
  end.

(** [s.lower()] *)
Definition lower (s : str) : str := lower_from [] s.

End Strings.

Fixpoint drop_while (f : N -> bool) (s : str) : str :=
  match s with
  | [] => []
  | c :: rest => if f c then drop_while f rest else s
  end.

Fixpoint take_while (f : N -> bool) (s : str) : str :=
  match s with
  | [] => []
  | c :: rest => if f c then c :: take_while f rest else []
  end.

Definition lstrip (s : str) : str := drop_while is_space s.
Definition rstrip (s : str) : str := rev (drop_while is_space (rev s)).

(** [s.strip()] *)
Definition strip (s : str) : str := rstrip (lstrip s).

(** [s.rstrip(';')] *)
Definition rstrip_semicolon (s : str) : str :=
  rev (drop_while (N.eqb 59) (rev s)).

(** [re.sub(r'\s+', ' ', s)]: a whitespace character is replaced by one
    space when it closes its run and dropped otherwise. *)
Fixpoint collapse_spaces (s : str) : str :=
  match s with
  | [] => []
  | c :: rest =>
    if is_space c then
      match rest with
      | [] => [32]
      | c' :: _ => if is_space c' then collapse_spaces rest
                   else 32 :: collapse_spaces rest
      end
    else c :: collapse_spaces rest
  end.

(** Whitespace is tidy when it consists of single spaces. *)
Fixpoint tidy (s : str) : Prop :=
  match s with
  | [] => True
  | c :: rest =>
    (is_space c = true ->
     c = 32 /\ match rest with
               | [] => True
               | c' :: _ => is_space c' = false
               end)
    /\ tidy rest
  end.

(** [s.replace(';', by)] *)
Definition replace_semicolon (by_ : str) (s : str) : str :=
  flat_map (fun c => if c =? 59 then by_ else [c]) s.

(** [', '.join(parts)] and the like *)
Fixpoint join (sep : str) (parts : list str) : str :=
  match parts with
  | [] => []
  | [p] => p
  | p :: rest => p ++ sep ++ join sep rest
  end.

(** [str(n)] of an integer *)
Definition str_of_Z (z : Z) : str :=
  map N_of_ascii (list_ascii_of_string (NilEmpty.string_of_int (Z.to_int z))).

(** ** Regular expressions of the source

    Each pattern of the source is embedded as the matcher it denotes. *)

(** Case-insensitive match of a pattern literal against a character of
    the text ([re.IGNORECASE] on [str]): characters without case match
    themselves; a letter matches the characters with the same simple
    lowercase mapping, and [s] also matches U+017F.  The patterns of the
    source use the letters s, q, l, e, c, t only. *)
Definition sre_ci_eq (p c : N) : bool :=
  if is_ascii_lower p || is_ascii_upper p
  then (ascii_tolower c =? ascii_tolower p)
       || ((ascii_tolower p =? 115) && (c =? 383))
  else c =? p.

Fixpoint starts_ci (lit s : str) : bool :=
  match lit, s with
  | [], _ => true
  | _ :: _, [] => false
  | p :: lit', c :: s' => sre_ci_eq p c && starts_ci lit' s'
  end.

Inductive sub_mode := Scanning | InMatch (k : nat).

(** [re.sub(lit + r'\s*', '', s, flags=re.IGNORECASE)]: in a match, [k]
    characters of the literal remain, then the whitespace run. *)
Fixpoint remove_fence (lit : str) (m : sub_mode) (s : str) : str :=
  match s with
  | [] => []
  | c :: rest =>
    let scan :=
      if starts_ci lit s
      then remove_fence lit (InMatch (List.length lit - 1)) rest
      else c :: remove_fence lit Scanning rest in
    match m with
    | Scanning => scan
    | InMatch (S k) => remove_fence lit (InMatch k) rest
    | InMatch O => if is_space c then remove_fence lit (InMatch 0) rest
                   else scan
    end
  end.

(** [re.findall] for a pattern whose matches are never empty: [m s] is
    the match starting at the head of [s], if any; [skip] characters of
    the previous match remain. *)
Fixpoint findall_with (m : str -> option str) (skip : nat) (s : str)
  : list str :=
  match s with
  | [] => []
  | _ :: rest =>
    match skip with
    | S k => findall_with m k rest
    | O =>
      match m s with
      | Some hit => hit :: findall_with m (List.length hit - 1) rest
      | None => findall_with m 0 rest
      end
    end
  end.

Definition findall (m : str -> option str) (s : str) : list str :=
  findall_with m 0 s.

(** [SELECT\s] at the head of [s] *)
Definition select_head (s : str) : bool :=
  starts_ci (py "SELECT") s &&
  match skipn 6 s with
  | c :: _ => is_space c
  | [] => false
  end.

(** [(SELECT\s+.*?;)] with [re.DOTALL]: up to the first [;] *)
Definition match_select_semicolon (s : str) : option str :=
  if select_head s then
    let tail := skipn 7 s in
    if existsb (N.eqb 59) tail
    then Some (firstn 7 s ++ take_while (fun c => negb (c =? 59)) tail ++ [59])
    else None
  else None.

(** The text consumed by [.*?] before the lookahead [(?=SELECT|$)]:
    [$] holds at the end and before a newline that ends the text. *)
Fixpoint until_select_or_end (s : str) : str :=
  match s with
  | [] => []
  | c :: rest =>
    if starts_ci (py "SELECT") s
       || ((c =? 10) && match rest with [] => true | _ => false end)
    then []
    else c :: until_select_or_end rest
  end.

(** [(SELECT\s+.*?(?=SELECT|$))] with [re.DOTALL] *)
Definition match_select_lookahead (s : str) : option str :=
  if select_head s then
    let body := skipn 6 s in
    Some (firstn 6 s ++ take_while is_space body
            ++ until_select_or_end (drop_while is_space body))
  else None.

(** Third pattern, [SELECT\s+] then any text, with [re.DOTALL]: to the
    end of the text *)
Definition match_select_rest (s : str) : option str :=
  if select_head s then Some s else None.

Definition sql_patterns : list (str -> option str) :=
  [match_select_semicolon; match_select_lookahead; match_select_rest].

Section Regex.
Context {U : UnicodeDB}.

(** [re.search(r'[<cls>](\d+)', s)]: group 1 of the leftmost match *)
Fixpoint search_class_digits (cls : str) (s : str) : option str :=
  match s with
  | [] => None
  | c :: rest =>
    if existsb (N.eqb c) cls
       && match rest with d :: _ => is_digit d | [] => false end
    then Some (take_while is_digit rest)
    else search_class_digits cls rest
  end.

End Regex.

(** ** Data model *)

(** A condition triple of the intent *)
Record Condition := {
  field : str;
  operator : str;
  value : str
}.

(** The intent dictionary of [_analyze_question_intent].  [tables] lists
    the members of the source's set in the order of their insertion; the
    source leaves the order of the list to the set. *)
Record Intent := {
  tables : list str;
  conditions : list Condition;
  aggregations : bool;
  join_required : bool
}.

(** A value of a result row: [None], an integer, a text, or a value of
    another storage class (a real, a blob) carried with its [str()]. *)
Inductive sql_value :=
| VNone
| VInt (z : Z)
| VText (s : str)
| VOther (rendered : str).

(** [dict(row)]: column names to values, in column order *)
Definition row := list (str * sql_value).

(** The dictionary returned by [Database.execute_query] *)
Record QueryResult := {
  qr_success : bool;
  qr_error : option str;
  qr_columns : list str;
  qr_data : list row;
  qr_row_count : nat
}.

Inductive Method := llm | intent_based_fallback.

(** The dictionary returned by [TextToSQL.convert]; [None] is an absent
    key. *)
Record ConversionResult := {
  cr_success : bool;
  cr_error : option str;
  cr_question : str;
  cr_sql : option str;
  cr_result : option QueryResult;
  cr_summary : option str;
  cr_method : option Method;
  cr_intent_analysis : option Intent
}.

(** [str(v)] as an f-string renders it *)
Definition str_of_value (v : sql_value) : str :=
  match v with
  | VNone => py "None"
  | VInt z => str_of_Z z
  | VText s => s
  | VOther r => r
  end.

(** ** [text_to_sql.py]: the pure components *)

Section Components.
Context {U : UnicodeDB}.

Definition _analyze_question_intent (question : str) : Intent :=
  let question_lower := lower question in
  let tables_set :=
    (if any_in [py "用户"; py "会员"; py "客户"] question_lower
     then [py "users"] else [])
    ++ (if any_in [py "商品"; py "产品"; py "价格"; py "库存"] question_lower
        then [py "products"] else [])
    ++ (if any_in [py "订单"; py "购买"; py "交易"] question_lower
        then [py "orders"] else []) in
  let eq_cond (f v : str) :=
    {| field := f; operator := py "="; value := v |} in
  {| tables := tables_set;
     join_required := Nat.ltb 1 (List.length tables_set);
     aggregations :=
       any_in [py "统计"; py "总数"; py "平均"; py "最多"; py "最少";
               py "合计"; py "总和"] question_lower;
     conditions :=
       (if contains (py "张三") question
        then [eq_cond (py "users.username") (py "'张三'")] else [])
       ++ (if contains (py "李四") question
           then [eq_cond (py "users.username") (py "'李四'")] else [])
       ++ (if contains (py "手机") question_lower
           then [eq_cond (py "products.category") (py "'手机'")] else [])
       ++ (if contains (py "电脑") question_lower
           then [eq_cond (py "products.category") (py "'电脑'")] else [])
       ++ (if contains (py "高于") question_lower
              || contains (py "大于") question_lower
           then match search_class_digits (py "高于大于") question with
                | Some digits =>
                    [{| field := py "products.price"; operator := py ">";
                        value := digits |}]
                | None => []
                end
           else [])
  |}.

Definition valid_tables : list str :=
  [py "users"; py "products"; py "orders"; py "order_details"].

Definition _validate_sql_candidate (sql : str) : bool :=
  let sql_upper := upper sql in
  if negb (contains (py "SELECT") sql_upper)
     || negb (contains (py "FROM") sql_upper)
  then false
  else if contains (py "SELECT FROM") sql_upper then false
  else
    let has_valid_table :=
      existsb (fun table => contains table sql_upper)
              (map upper valid_tables) in
    if negb has_valid_table then false
    else if contains (py "JOIN") sql_upper
    then (if negb (contains (py "ON") sql_upper) then false else true)
    else true.

(** The statement separator is appended when it is missing. *)
Definition ensure_semicolon (sql : str) : str :=
  if negb (endswith (py ";") sql) then sql ++ py ";" else sql.

(** The inner loop of [_extract_sql_advanced]: the matches of one
    pattern, in order of appearance. *)
Fixpoint try_matches (matches : list str) : option str :=
  match matches with
  | [] => None
  | m :: rest =>
    let sql_candidate := strip m in
    if _validate_sql_candidate sql_candidate
    then Some (ensure_semicolon sql_candidate)
    else try_matches rest
  end.

(** The outer loop: the patterns, in order. *)
Fixpoint try_patterns (patterns : list (str -> option str)) (text : str)
  : option str :=
  match patterns with
  | [] => None
  | pattern :: rest =>
    match try_matches (findall pattern text) with
    | Some sql => Some sql
    | None => try_patterns rest text
    end
  end.

(** The text with the code fences removed *)
Definition clean_fences (text : str) : str :=
  remove_fence (py "```") Scanning
    (remove_fence (py "```sql") Scanning text).

Definition _extract_sql_advanced (text : str) : option str :=
  try_patterns sql_patterns (clean_fences text).

(** The first two steps of [_post_process_sql]: whitespace and
    separator. *)
Definition normalize_sql (sql : str) : str :=
  ensure_semicolon (strip (collapse_spaces sql)).

Definition _post_process_sql (sql question : str) : str :=
  let sql := normalize_sql sql in
  let sql_upper := upper sql in
  if contains (py "张三") question && negb (contains (py "张三") sql)
  then
    if contains (py "users") sql_upper
       && negb (contains (py "WHERE") sql_upper)
    then replace_semicolon (py " WHERE username = '张三';") sql
    else sql
  else sql.

End Components.

Section Fallback.
Context {U : UnicodeDB}.

(** The [if]/[elif] chain of [_generate_sql_by_intent]: [Some sql] where
    a branch returns, [None] where control leaves the chain without a
    [return]. *)
Definition intent_chain (question : str) : option str :=
  let question_lower := lower question in
  if contains (py "所有用户") question then
    Some (py "SELECT * FROM users;")
  else if contains (py "所有商品") question then
    Some (py "SELECT * FROM products;")
  else if contains (py "所有订单") question then
    Some (py "SELECT * FROM orders;")
  else if contains (py "张三") question && contains (py "订单") question then
    Some (py "SELECT o.* FROM orders o JOIN users u ON o.user_id = u.user_id WHERE u.username = '张三';")
  else if contains (py "李四") question && contains (py "订单") question then
    Some (py "SELECT o.* FROM orders o JOIN users u ON o.user_id = u.user_id WHERE u.username = '李四';")
  else if contains (py "手机") question_lower then
    Some (py "SELECT * FROM products WHERE category = '手机';")
  else if contains (py "电脑") question_lower then
    Some (py "SELECT * FROM products WHERE category = '电脑';")
  else if contains (py "平板") question_lower then
    Some (py "SELECT * FROM products WHERE category = '平板';")
  else if contains (py "价格高于") question
          || contains (py "价格大于") question then
    match search_class_digits (py "高于大于") question with
    | Some digits =>
        Some (py "SELECT * FROM products WHERE price > " ++ digits ++ py ";")
    | None => None
    end
  else if contains (py "价格低于") question
          || contains (py "价格小于") question then
    match search_class_digits (py "低于小于") question with
    | Some digits =>
        Some (py "SELECT * FROM products WHERE price < " ++ digits ++ py ";")
    | None => None
    end
  else if contains (py "统计") question || contains (py "总数") question then
    if contains (py "用户") question && contains (py "订单") question then
      Some (py "SELECT u.username, COUNT(o.order_id) as order_count FROM users u LEFT JOIN orders o ON u.user_id = o.user_id GROUP BY u.user_id, u.username;")
    else if contains (py "分类") question && contains (py "商品") question then
      Some (py "SELECT category, COUNT(*) as product_count FROM products GROUP BY category;")
    else if contains (py "订单") question then
      Some (py "SELECT COUNT(*) as total_orders FROM orders;")
    else None
  else if contains (py "详情") question || contains (py "详细") question then
    Some (py "SELECT * FROM order_details;")
  else None.

Definition _generate_sql_by_intent (question : str) (intent : Intent) : str :=
  match intent_chain question with
  | Some sql => sql
  | None => py "SELECT * FROM order_details LIMIT 10;"
  end.

(** [f"{row[keys[0]]}: {row[keys[1]]}"] for the rows with two keys *)
Definition summary_parts (data : list row) : list str :=
  flat_map (fun r : row =>
              match r with
              | [(_, v0); (_, v1)] =>
                  [str_of_value v0 ++ py ": " ++ str_of_value v1]
              | _ => []
              end) data.

(** The first value of a row whose key contains [marker] in lower case *)
Fixpoint first_marked (marker : str) (r : row) : option sql_value :=
  match r with
  | [] => None
  | (key, v) :: rest =>
    if contains marker (lower key) then Some v else first_marked marker rest
  end.

Definition marked_summary (label marker : str) (data : list row)
  : option str :=
  match data with
  | [] => None
  | first_row :: _ =>
    match first_marked marker first_row with
    | Some v => Some (label ++ str_of_value v)
    | None => None
    end
  end.

(** The [if]/[elif] chain of [_generate_intelligent_summary] on the
    question's keywords: [None] where no branch returns. *)
Definition summary_chain (question : str) (data : list row) : option str :=
  let question_lower := lower question in
  if contains (py "统计") question_lower
     || contains (py "总数") question_lower
     || contains (py "数量") question_lower then
    match data with
    | [] => None
    | first_row :: _ =>
      if Nat.eqb (List.length first_row) 2 then
        match summary_parts data with
        | [] => None
        | parts => Some (py "统计结果: " ++ join (py ", ") parts)
        end
      else None
    end
  else if contains (py "平均") question_lower then
    marked_summary (py "平均值为: ") (py "avg") data
  else if contains (py "最多") question_lower
          || contains (py "最高") question_lower then
    marked_summary (py "最大值为: ") (py "max") data
  else if contains (py "最少") question_lower
          || contains (py "最低") question_lower then
    marked_summary (py "最小值为: ") (py "min") data
  else None.

Definition _generate_intelligent_summary
    (question sql : str) (result : QueryResult) : str :=
  if negb (qr_success result) then
    py "查询执行失败: "
      ++ match qr_error result with
         | Some e => e
         | None => py "未知错误"
         end
  else
    let row_count := qr_row_count result in
    if Nat.eqb row_count 0 then py "未找到匹配的数据。"
    else
      match summary_chain question (qr_data result) with
      | Some s => s
      | None =>
        if Nat.eqb row_count 1 then py "查询完成，找到1条匹配记录。"
        else py "查询完成，共找到" ++ str_of_Z (Z.of_nat row_count)
               ++ py "条匹配记录。"
      end.

End Fallback.

(** ** Effects: calls on the storage object and raised exceptions *)

(** What a request does to the storage object, in order. *)
Inductive event :=
| ValidateCalled (sql : str)   (* [Database.validate_sql(sql)] is entered *)
| DryRun (stmt : str)          (* [cursor.execute] of the EXPLAIN statement *)
| Executed (sql : str).        (* [cursor.execute(sql)] of [execute_query] *)

Inductive outcome (A : Type) :=
| Ret (a : A)
| Raise (msg : str).
Arguments Ret {A} a.
Arguments Raise {A} msg.

(** A computation: its outcome and the events it caused. *)
Definition M (A : Type) : Type := outcome A * list event.

Definition ret {A} (a : A) : M A := (Ret a, []).
Definition raise {A} (msg : str) : M A := (Raise msg, []).
Definition tell (e : event) : M unit := (Ret tt, [e]).

Definition bind {A B} (m : M A) (f : A -> M B) : M B :=
  match m with
  | (Ret a, t) => let (r, t') := f a in (r, t ++ t')
  | (Raise msg, t) => (Raise msg, t)
  end.

Notation "x <- m ;; k" := (bind m (fun x => k))
  (at level 61, m at next level, right associativity).
Notation "m ;;; k" := (bind m (fun _ => k))
  (at level 61, right associativity).

(** The answer of the storage engine to a statement: completion, an
    [sqlite3.Error] with its message, or another exception. *)
Inductive engine_reply (A : Type) :=
| Done (a : A)
| SqliteError (msg : str)
| OtherError (msg : str).
Arguments Done {A} a.
Arguments SqliteError {A} msg.
Arguments OtherError {A} msg.

(** The collaborators of a request.  [generate_sql] is [_generate_sql]
    (the model call, which returns the empty text on failure) and
    [build_prompt] is [_build_context_aware_prompt]. *)
Record Env := {
  model_loaded : bool;
  build_prompt : str -> str;
  generate_sql : str -> str;
  engine_explain : str -> engine_reply unit;
  engine_execute : str -> engine_reply (list str * list row)
}.

(** ** [database.py] *)

Definition dangerous_keywords : list str :=
  [py "INSERT"; py "UPDATE"; py "DELETE"; py "DROP"; py "ALTER";
   py "CREATE"; py "TRUNCATE"].

Definition forbidden_message (keyword : str) : str :=
  py "不允许执行 " ++ keyword ++ py " 操作，仅支持 SELECT 查询".

Definition execute_query (env : Env) (sql : str) : M QueryResult :=
  tell (Executed sql) ;;;
  match engine_execute env sql with
  | Done (columns, results) =>
      ret {| qr_success := true; qr_error := None; qr_columns := columns;
             qr_data := results; qr_row_count := List.length results |}
  | SqliteError e =>
      ret {| qr_success := false; qr_error := Some e; qr_columns := [];
             qr_data := []; qr_row_count := 0 |}
  | OtherError e => raise e
  end.

Section Database.
Context {U : UnicodeDB}.

(** The security scan of [validate_sql]: the first keyword of the list
    found in the upper-cased statement. *)
Definition find_dangerous (sql : str) : option str :=
  let sql_upper := upper (strip sql) in
  find (fun keyword => contains keyword sql_upper) dangerous_keywords.

Definition validate_sql (env : Env) (sql : str) : M (bool * option str) :=
  tell (ValidateCalled sql) ;;;
  match find_dangerous sql with
  | Some keyword => ret (false, Some (forbidden_message keyword))
  | None =>
    let sql_clean := strip (rstrip_semicolon sql) in
    let stmt := py "EXPLAIN QUERY PLAN " ++ sql_clean in
    tell (DryRun stmt) ;;;
    match engine_explain env stmt with
    | Done _ => ret (true, None)
    | SqliteError e => ret (false, Some e)
    | OtherError e => raise e
    end
  end.

End Database.

(** ** [text_to_sql.py]: the orchestrator *)

Section Orchestrator.
Context {U : UnicodeDB}.

Definition _smart_fallback (env : Env) (question : str)
  : M ConversionResult :=
  let intent := _analyze_question_intent question in
  let sql := _generate_sql_by_intent question intent in
  result <- execute_query env sql ;;
  let summary := _generate_intelligent_summary question sql result in
  ret {| cr_success := true; cr_error := None; cr_question := question;
         cr_sql := Some sql; cr_result := Some result;
         cr_summary := Some summary;
         cr_method := Some intent_based_fallback;
         cr_intent_analysis := Some intent |}.

(** [f'{error_msg}'] *)
Definition str_of_message (m : option str) : str :=
  match m with
  | Some e => e
  | None => py "None"
  end.

(** The body of the [try] of [convert] *)
Definition convert_body (env : Env) (question : str) : M ConversionResult :=
  if negb (model_loaded env) then _smart_fallback env question
  else
    let intent := _analyze_question_intent question in
    let prompt := build_prompt env question in
    let generated_text := generate_sql env prompt in
    match generated_text with
    | [] => _smart_fallback env question
    | _ :: _ =>
      match _extract_sql_advanced generated_text with
      | None | Some [] => _smart_fallback env question
      | Some sql =>
        let sql := _post_process_sql sql question in
        v <- validate_sql env sql ;;
        let '(is_valid, error_msg) := v in
        if negb is_valid then
          ret {| cr_success := false;
                 cr_error := Some (py "SQL语法错误: " ++ str_of_message error_msg);
                 cr_question := question; cr_sql := Some sql;
                 cr_result := None; cr_summary := None; cr_method := None;
                 cr_intent_analysis := None |}
        else
          result <- execute_query env sql ;;
          let summary := _generate_intelligent_summary question sql result in
          ret {| cr_success := true; cr_error := None;
                 cr_question := question; cr_sql := Some sql;
                 cr_result := Some result; cr_summary := Some summary;
                 cr_method := Some llm;
                 cr_intent_analysis := Some intent |}
      end
    end.

(** [convert]: an exception of the body becomes a failure result. *)
Definition convert (env : Env) (question : str)
  : ConversionResult * list event :=
  match convert_body env question with
  | (Ret r, t) => (r, t)
  | (Raise e, t) =>
      ({| cr_success := false;
          cr_error := Some (py "转换过程出错: " ++ e);
          cr_question := question; cr_sql := None; cr_result := None;
          cr_summary := None; cr_method := None;
          cr_intent_analysis := None |}, t)
  end.

End Orchestrator.

(** ** The specification's notions *)

(** [kw] occurs in [s] as a substring, letters compared without regard
    to ASCII case ([kw] in upper case). *)
Definition ci_contains (kw s : str) : bool :=
  contains kw (map ascii_toupper s).

(** A statement of the fallback generator is well formed: not empty,
    with SELECT, closed by the separator. *)
Definition well_formed_select (sql : str) : Prop :=
  sql <> [] /\ contains (py "SELECT") sql = true
  /\ endswith (py ";") sql = true.

Section SpecDecisionList.
Context {U : UnicodeDB}.

(** The decision list of the fallback generator as the specification
    words it: an ordered list of rules, the first rule that fires
    returns, a rule that does not fire hands over to the next one. *)
Definition rule := str -> option str.

Definition rule_all_table : rule := fun question =>
  if contains (py "所有用户") question then Some (py "SELECT * FROM users;")
  else if contains (py "所有商品") question then
    Some (py "SELECT * FROM products;")
  else if contains (py "所有订单") question then
    Some (py "SELECT * FROM orders;")
  else None.

Definition rule_named_orders : rule := fun question =>
  if contains (py "张三") question && contains (py "订单") question then
    Some (py "SELECT o.* FROM orders o JOIN users u ON o.user_id = u.user_id WHERE u.username = '张三';")
  else if contains (py "李四") question && contains (py "订单") question then
    Some (py "SELECT o.* FROM orders o JOIN users u ON o.user_id = u.user_id WHERE u.username = '李四';")
  else None.

Definition rule_category : rule := fun question =>
  let question_lower := lower question in
  if contains (py "手机") question_lower then
    Some (py "SELECT * FROM products WHERE category = '手机';")
  else if contains (py "电脑") question_lower then
    Some (py "SELECT * FROM products WHERE category = '电脑';")
  else if contains (py "平板") question_lower then
    Some (py "SELECT * FROM products WHERE category = '平板';")
  else None.

(** The price-threshold phrase of each family *)
Definition price_above_phrase (question : str) : bool :=
  contains (py "价格高于") question || contains (py "价格大于") question.

Definition price_below_phrase (question : str) : bool :=
  contains (py "价格低于") question || contains (py "价格小于") question.

(** The digits the numeric-capture pattern extracts for the price
    family that is consulted: the first family whose phrase is present. *)
Definition price_digits (question : str) : option str :=
  if price_above_phrase question
  then search_class_digits (py "高于大于") question
  else if price_below_phrase question
  then search_class_digits (py "低于小于") question
  else None.

Definition rule_price : rule := fun question =>
  if price_above_phrase question then
    match search_class_digits (py "高于大于") question with
    | Some digits =>
        Some (py "SELECT * FROM products WHERE price > " ++ digits ++ py ";")
    | None => None
    end
  else if price_below_phrase question then
    match search_class_digits (py "低于小于") question with
    | Some digits =>
        Some (py "SELECT * FROM products WHERE price < " ++ digits ++ py ";")
    | None => None
    end
  else None.

Definition rule_aggregation : rule := fun question =>
  if contains (py "统计") question || contains (py "总数") question then
    if contains (py "用户") question && contains (py "订单") question then
      Some (py "SELECT u.username, COUNT(o.order_id) as order_count FROM users u LEFT JOIN orders o ON u.user_id = o.user_id GROUP BY u.user_id, u.username;")
    else if contains (py "分类") question && contains (py "商品") question then
      Some (py "SELECT category, COUNT(*) as product_count FROM products GROUP BY category;")
    else if contains (py "订单") question then
      Some (py "SELECT COUNT(*) as total_orders FROM orders;")
    else None
  else None.

Definition rule_detail : rule := fun question =>
  if contains (py "详情") question || contains (py "详细") question then
    Some (py "SELECT * FROM order_details;")
  else None.

Fixpoint first_match (rules : list rule) (question : str) : option str :=
  match rules with
  | [] => None
  | r :: rest =>
    match r question with
    | Some sql => Some sql
    | None => first_match rest question
    end
  end.

Definition default_statement : str :=
  py "SELECT * FROM order_details LIMIT 10;".

Definition rules_before_price : list rule :=
  [rule_all_table; rule_named_orders; rule_category].

Definition rules_after_price : list rule :=
  [rule_aggregation; rule_detail].

(** What the specification's list yields once the price rule has not
    fired: the rules after it, then the default rule. *)
Definition continue_after_price (question : str) : str :=
  match first_match rules_after_price question with
  | Some sql => sql
  | None => default_statement
  end.

(** The price rule as the specification states it, for a question that
    reaches it with a price phrase and no digits: the rules after it
    decide. *)
Definition price_rule_hands_over (question : str) : Prop :=
  first_match rules_before_price question = None ->
  (price_above_phrase question || price_below_phrase question)%bool = true ->
  price_digits question = None ->
  forall intent,
    _generate_sql_by_intent question intent = continue_after_price question.

(** The phrases the rules of the decision list look for.  A question is
    unrecognized when it holds none of them, in its own or in lower
    case. *)
Definition trigger_phrases : list str :=
  [py "所有用户"; py "所有商品"; py "所有订单"; py "张三"; py "李四";
   py "手机"; py "电脑"; py "平板"; py "价格高于"; py "价格大于";
   py "价格低于"; py "价格小于"; py "统计"; py "总数"; py "详情";
   py "详细"].

Definition unrecognized (question : str) : bool :=
  forallb (fun phrase =>
             negb (contains phrase question)
             && negb (contains phrase (lower question)))
          trigger_phrases.

End SpecDecisionList.

(** ** The specification's claims on the orchestrator *)

Section SpecOrchestrator.
Context {U : UnicodeDB}.

(** A rejection by the validator on the model path as the
    specification's state machine has it: the request moves to the
    fallback path and ends executed and summarized. *)
Definition rejection_falls_back (env : Env) (question : str) : Prop :=
  forall candidate message trace,
    model_loaded env = true ->
    generate_sql env (build_prompt env question) <> [] ->
    _extract_sql_advanced (generate_sql env (build_prompt env question))
    = Some candidate ->
    validate_sql env (_post_process_sql candidate question)
    = (Ret (false, message), trace) ->
    let (r, events) := convert env question in
    cr_success r = true
    /\ cr_method r = Some intent_based_fallback
    /\ cr_result r <> None
    /\ cr_summary r <> None
    /\ exists sql, In (Executed sql) events.

(** A failure of the storage engine during execution as the
    specification's propagation policy has it: the message is the
    error of the conversion result. *)
Definition execution_failure_in_error (env : Env) (question : str) : Prop :=
  forall sql message,
    In (Executed sql) (snd (convert env question)) ->
    engine_execute env sql = SqliteError message ->
    cr_error (fst (convert env question)) = Some message.

End SpecOrchestrator.

(** ** Sample requests *)

(** A model that answers with a statement reading the [created_at]
    column, on a storage engine that accepts everything. *)
Definition env_created_at : Env := {|
  model_loaded := true;
  build_prompt := fun question => question;
  generate_sql := fun _ => py "SELECT username, created_at FROM users;";
  engine_explain := fun _ => Done tt;
  engine_execute := fun _ => Done ([], [])
|}.

(** No model, and a storage engine without the tables. *)
Definition env_no_tables : Env := {|
  model_loaded := false;
  build_prompt := fun question => question;
  generate_sql := fun _ => [];
  engine_explain := fun _ => SqliteError (py "no such table: users");
  engine_execute := fun _ => SqliteError (py "no such table: users")
|}.

Definition category_rows : list row :=
  [ [(py "category", VText (py "手机")); (py "product_count", VInt 2)];
    [(py "category", VText (py "电脑")); (py "product_count", VInt 1)] ].

(** No model, and a storage engine holding two phones and one computer. *)
Definition env_categories : Env := {|
  model_loaded := false;
  build_prompt := fun question => question;
  generate_sql := fun _ => [];
  engine_explain := fun _ => Done tt;
  engine_execute := fun _ =>
    Done ([py "category"; py "product_count"], category_rows)
|}.

(** A model that answers with two statements, the first without a
    table. *)
Definition two_statements : str :=
  py "SELECT name; SELECT * FROM users;".

(** ** Further notions *)

(** The statements of the fallback generator that hold no text of the
    question. *)
Definition fixed_statements : list str :=
  [py "SELECT * FROM users;";
   py "SELECT * FROM products;";
   py "SELECT * FROM orders;";
   py "SELECT o.* FROM orders o JOIN users u ON o.user_id = u.user_id WHERE u.username = '张三';";
   py "SELECT o.* FROM orders o JOIN users u ON o.user_id = u.user_id WHERE u.username = '李四';";
   py "SELECT * FROM products WHERE category = '手机';";
   py "SELECT * FROM products WHERE category = '电脑';";
   py "SELECT * FROM products WHERE category = '平板';";
   py "SELECT u.username, COUNT(o.order_id) as order_count FROM users u LEFT JOIN orders o ON u.user_id = o.user_id GROUP BY u.user_id, u.username;";
   py "SELECT category, COUNT(*) as product_count FROM products GROUP BY category;";
   py "SELECT COUNT(*) as total_orders FROM orders;";
   py "SELECT * FROM order_details;";
   py "SELECT * FROM order_details LIMIT 10;"].

(** The two heads of the price statement *)
Definition price_heads : list str :=
  [py "SELECT * FROM products WHERE price > ";
   py "SELECT * FROM products WHERE price < "].

(** [key in d] for an optional key *)
Definition present {A : Type} (o : option A) : bool :=
  match o with
  | Some _ => true
  | None => false
  end.

(** The statement [validate_sql] submits for the dry run of [sql] *)
Definition dry_run_statement (sql : str) : str :=
  py "EXPLAIN QUERY PLAN " ++ strip (rstrip_semicolon sql).

(** The suffixes of a text, the text itself first *)
Fixpoint suffixes (s : str) : list str :=
  s :: match s with
       | [] => []
       | _ :: rest => suffixes rest
       end.

(** SELECT followed by whitespace occurs somewhere in the text *)
Definition has_select_head (s : str) : bool :=
  existsb select_head (suffixes s).


(** The default sentence of the summarizer for [row_count] rows *)
Definition count_sentence (row_count : nat) : str :=
  if Nat.eqb row_count 1 then py "查询完成，找到1条匹配记录。"
  else py "查询完成，共找到" ++ str_of_Z (Z.of_nat row_count)
         ++ py "条匹配记录。".

(** ** [text_to_sql.py]: serialization and the model call *)

(** Python values as [_make_json_serializable] tells them apart.  A set
    is listed in the order of its iteration; [POther] is any other
    object, with its [str()]; a float is carried with its text. *)
#[local] Unset Elimination Schemes.
Inductive pyvalue :=
| PStr (s : str)
| PInt (z : Z)
| PFloat (text : str)
| PBool (b : bool)
| PNone
| PDict (items : list (pyvalue * pyvalue))
| PList (items : list pyvalue)
| PTuple (items : list pyvalue)
| PSet (items : list pyvalue)
| POther (rendered : str).
#[local] Set Elimination Schemes.

Fixpoint _make_json_serializable (data : pyvalue) : pyvalue :=
  match data with
  | PStr _ | PInt _ | PFloat _ | PBool _ | PNone => data
  | PDict items =>
      PDict (map (fun kv => let '(k, v) := kv in
                            (k, _make_json_serializable v)) items)
  | PList items => PList (map _make_json_serializable items)
  | PTuple items => PList (map _make_json_serializable items)
  | PSet items => PList (map _make_json_serializable items)
  | POther rendered => PStr rendered
  end.

(** A value whose values, at every depth, are text, numbers, booleans,
    [None], dictionaries and lists *)
Fixpoint json_plain (data : pyvalue) : bool :=
  match data with
  | PStr _ | PInt _ | PFloat _ | PBool _ | PNone => true
  | PDict items => forallb (fun kv => json_plain (snd kv)) items
  | PList items => forallb json_plain items
  | PTuple _ | PSet _ | POther _ => false
  end.

(** The intent dictionary as the analyzer builds it *)
Definition condition_value (c : Condition) : pyvalue :=
  PDict [(PStr (py "field"), PStr (field c));
         (PStr (py "operator"), PStr (operator c));
         (PStr (py "value"), PStr (value c))].

Definition intent_value (intent : Intent) : pyvalue :=
  PDict [(PStr (py "tables"), PList (map PStr (tables intent)));
         (PStr (py "conditions"),
          PList (map condition_value (conditions intent)));
         (PStr (py "aggregations"), PBool (aggregations intent));
         (PStr (py "join_required"), PBool (join_required intent))].

(** [s.split(sep)[-1]] for a separator that is not empty: [piece] is
    the text after the last occurrence found, [skip] characters of it
    remain to pass. *)
Fixpoint last_piece_from (sep : str) (skip : nat) (s piece : str) : str :=
  match s with
  | [] => piece
  | _ :: rest =>
    match skip with
    | S k => last_piece_from sep k rest piece
    | O =>
      if startswith sep s
      then last_piece_from sep (List.length sep - 1) rest
             (skipn (List.length sep) s)
      else last_piece_from sep 0 rest piece
    end
  end.

Definition last_piece (sep s : str) : str := last_piece_from sep 0 s s.

(** [_generate_sql]: [decode] is the tokenizer, the model and the
    decoder in one, on the prompt; an exception inside the [try], that
    of [split] on an empty separator included, gives the empty text. *)
Definition _generate_sql (decode : str -> outcome str) (prompt : str) : str :=
  match decode prompt with
  | Raise _ => []
  | Ret generated_text =>
    if contains prompt generated_text then
      match prompt with
      | [] => []
      | _ :: _ => strip (last_piece prompt generated_text)
      end
    else generated_text
  end.

(** ** The console *)

(** The lines printed while a request is served: those of [convert]
    inside its [try], that of [_generate_sql] in its [except] branch,
    that of [init_database] for a refused statement of the sample data,
    and the two of [get_converter] when the converter cannot be
    built. *)
Inductive console_line :=
| IntentLine (intent : Intent)
| GenerationErrorLine (e : str)
| GeneratedLine (head : str)
| GenerationFailedLine
| ExtractionFailedLine
| FinalSqlLine (sql : str)
| InsertErrorLine (e : str)
| ConverterErrorLine (e : str)
| ConverterHintLine.

(** The console: [None] when the line is written, the message of the
    exception when [print] raises. *)
Definition console := console_line -> option str.

Definition print (out : console) (line : console_line) : M unit :=
  match out line with
  | None => ret tt
  | Some msg => raise msg
  end.

(** ** [text_to_sql.py]: [convert] with its console output *)

(** The converter object with its model.  [self_env] is as above, but
    for the text of the model, which is not taken from [generate_sql]:
    it comes from [self_decode], the tokenizer, the model and the
    decoder in one, through [_generate_sql]. *)
Record TextToSQL := {
  self_env : Env;
  self_decode : str -> outcome str
}.

(** The collaborators of the converter when nothing is printed *)
Definition quiet (self : TextToSQL) : Env := {|
  model_loaded := model_loaded (self_env self);
  build_prompt := build_prompt (self_env self);
  generate_sql := _generate_sql (self_decode self);
  engine_explain := engine_explain (self_env self);
  engine_execute := engine_execute (self_env self)
|}.

(** [_generate_sql] with the [print] of its [except] branch; the
    exception of [split] on an empty separator is a [ValueError]. *)
Definition _generate_sql_printing (decode : str -> outcome str)
    (out : console) (prompt : str) : M str :=
  match decode prompt with
  | Raise e => print out (GenerationErrorLine e) ;;; ret []
  | Ret generated_text =>
    if contains prompt generated_text then
      match prompt with
      | [] => print out (GenerationErrorLine (py "empty separator")) ;;; ret []
      | _ :: _ => ret (strip (last_piece prompt generated_text))
      end
    else ret generated_text
  end.

Section Printing.
Context {U : UnicodeDB}.

(** The body of the [try] of [convert], the calls of [print]
    included *)
Definition convert_body_printing (self : TextToSQL) (out : console)
    (question : str) : M ConversionResult :=
  let env := self_env self in
  if negb (model_loaded env) then _smart_fallback env question
  else
    let intent := _analyze_question_intent question in
    print out (IntentLine intent) ;;;
    let prompt := build_prompt env question in
    generated_text <- _generate_sql_printing (self_decode self) out prompt ;;
    match generated_text with
    | [] => print out GenerationFailedLine ;;; _smart_fallback env question
    | _ :: _ =>
      print out (GeneratedLine (firstn 200 generated_text)) ;;;
      match _extract_sql_advanced generated_text with
      | None | Some [] =>
          print out ExtractionFailedLine ;;; _smart_fallback env question
      | Some sql =>
        let sql := _post_process_sql sql question in
        print out (FinalSqlLine sql) ;;;
        v <- validate_sql env sql ;;
        let '(is_valid, error_msg) := v in
        if negb is_valid then
          ret {| cr_success := false;
                 cr_error := Some (py "SQL语法错误: " ++ str_of_message error_msg);
                 cr_question := question; cr_sql := Some sql;
                 cr_result := None; cr_summary := None; cr_method := None;
                 cr_intent_analysis := None |}
        else
          result <- execute_query env sql ;;
          let summary := _generate_intelligent_summary question sql result in
          ret {| cr_success := true; cr_error := None;
                 cr_question := question; cr_sql := Some sql;
                 cr_result := Some result; cr_summary := Some summary;
                 cr_method := Some llm;
                 cr_intent_analysis := Some intent |}
      end
    end.

(** [convert] with its console: an exception of the body, that of a
    [print] included, becomes a failure result. *)
Definition convert_printing (self : TextToSQL) (out : console)
    (question : str) : ConversionResult * list event :=
  match convert_body_printing self out question with
  | (Ret r, t) => (r, t)
  | (Raise e, t) =>
      ({| cr_success := false;
          cr_error := Some (py "转换过程出错: " ++ e);
          cr_question := question; cr_sql := None; cr_result := None;
          cr_summary := None; cr_method := None;
          cr_intent_analysis := None |}, t)
  end.

End Printing.

(** ** [database.py]: [init_database] *)

(** [s.split(';')] *)
Fixpoint split_semicolon (s : str) : list str :=
  match s with
  | [] => [[]]
  | c :: rest =>
    if c =? 59 then [] :: split_semicolon rest
    else match split_semicolon rest with
         | piece :: pieces => (c :: piece) :: pieces
         | [] => [[c]]
         end
  end.

(** The statements of a script as the loops of [init_database] see
    them: the pieces between separators, stripped, the empty ones
    skipped. *)
Definition script_statements (script : str) : list str :=
  filter (fun statement => negb (str_eqb statement []))
         (map strip (split_semicolon script)).

(** What [init_database] does to its connection, in order *)
Inductive db_event :=
| Statement (sql : str)
| Commit
| Rollback.

(** The count query of [init_database] *)
Definition count_query : str := py "SELECT COUNT(*) FROM users".

Section InitDatabase.

(** The storage engine behind one connection: a state, and the answer
    to a statement with the state it leaves.  A completed statement
    gives its rows, each the list of its values. *)
Variable db : Type.
Variable run : db -> str -> engine_reply (list (list sql_value)) * db.
Variable commit : db -> engine_reply unit * db.
Variable out : console.

(** The loop over the schema script: any exception leaves the loop. *)
Fixpoint run_schema (statements : list str) (d : db)
  : outcome unit * db * list db_event :=
  match statements with
  | [] => (Ret tt, d, [])
  | statement :: rest =>
    match run d statement with
    | (Done _, d') =>
        let '(o, d'', t) := run_schema rest d' in
        (o, d'', Statement statement :: t)
    | (SqliteError e, d') => (Raise e, d', [Statement statement])
    | (OtherError e, d') => (Raise e, d', [Statement statement])
    end
  end.

(** The loop over the sample data: an [sqlite3.Error] is printed and
    the loop goes on, unless the [print] raises. *)
Fixpoint run_samples (statements : list str) (d : db)
  : outcome unit * db * list db_event :=
  match statements with
  | [] => (Ret tt, d, [])
  | statement :: rest =>
    match run d statement with
    | (Done _, d') =>
        let '(o, d'', t) := run_samples rest d' in
        (o, d'', Statement statement :: t)
    | (SqliteError e, d') =>
        match out (InsertErrorLine e) with
        | None =>
            let '(o, d'', t) := run_samples rest d' in
            (o, d'', Statement statement :: t)
        | Some msg => (Raise msg, d', [Statement statement])
        end
    | (OtherError e, d') => (Raise e, d', [Statement statement])
    end
  end.

(** [cursor.fetchone()[0] == 0] on the rows of the count query: without
    a row, or without a column, the subscript raises; a real equals 0
    when its text is that of a zero. *)
Definition count_is_zero (rows : list (list sql_value)) : outcome bool :=
  match rows with
  | (VInt z :: _) :: _ => Ret (Z.eqb z 0)
  | (VOther text :: _) :: _ =>
      Ret (str_eqb text (py "0.0") || str_eqb text (py "-0.0"))
  | (_ :: _) :: _ => Ret false
  | [] :: _ => Raise (py "tuple index out of range")
  | [] => Raise (py "'NoneType' object is not subscriptable")
  end.

(** The body of the [with] of [init_database]; a file is [None] when
    it does not exist. *)
Definition init_body (schema_file sample_file : option str) (d : db)
  : outcome unit * db * list db_event :=
  let '(o, d1, t1) :=
    match schema_file with
    | Some schema_sql => run_schema (script_statements schema_sql) d
    | None => (Ret tt, d, [])
    end in
  match o with
  | Raise e => (Raise e, d1, t1)
  | Ret _ =>
    let count := count_query in
    match run d1 count with
    | (SqliteError e, d2) | (OtherError e, d2) =>
        (Raise e, d2, t1 ++ [Statement count])
    | (Done rows, d2) =>
      match count_is_zero rows with
      | Raise e => (Raise e, d2, t1 ++ [Statement count])
      | Ret false => (Ret tt, d2, t1 ++ [Statement count])
      | Ret true =>
        match sample_file with
        | None => (Ret tt, d2, t1 ++ [Statement count])
        | Some sample_sql =>
          let '(o3, d3, t3) :=
            run_samples (script_statements sample_sql) d2 in
          (o3, d3, t1 ++ Statement count :: t3)
        end
      end
    end
  end.

(** [init_database] in [get_connection]: the connection is committed
    when the body ends, and rolled back when the body or the commit
    raises; the exception is raised again. *)
Definition init_database (schema_file sample_file : option str) (d : db)
  : outcome unit * db * list db_event :=
  let '(o, d', t) := init_body schema_file sample_file d in
  match o with
  | Ret _ =>
    match commit d' with
    | (Done _, d'') => (Ret tt, d'', t ++ [Commit])
    | (SqliteError e, d'') | (OtherError e, d'') =>
        (Raise e, d'', t ++ [Commit; Rollback])
    end
  | Raise e => (Raise e, d', t ++ [Rollback])
  end.

End InitDatabase.

Section EngineRuns.
Variable db : Type.
Variable run : db -> str -> engine_reply (list (list sql_value)) * db.

(** The replies of the engine to statements submitted one after the
    other from state [d], and the state they leave *)
Fixpoint run_list (statements : list str) (d : db)
  : list (engine_reply (list (list sql_value))) * db :=
  match statements with
  | [] => ([], d)
  | statement :: rest =>
    let (reply, d') := run d statement in
    let (replies, d'') := run_list rest d' in
    (reply :: replies, d'')
  end.

End EngineRuns.

(** An engine for samples.  Its state is the tables it holds and the
    number of its users.  It refuses to create a table it holds,
    refuses the statement [BAD], counts its users, adds a user for an
    INSERT INTO users, and completes every other statement. *)
Record store := {
  store_tables : list str;
  store_users : Z
}.

Definition store_run (d : store) (sql : str)
  : engine_reply (list (list sql_value)) * store :=
  if str_eqb sql (py "BAD") then (SqliteError (py "syntax error"), d)
  else if str_eqb sql count_query
  then (Done [[VInt (store_users d)]], d)
  else if startswith (py "CREATE TABLE ") sql
  then if existsb (str_eqb sql) (store_tables d)
       then (SqliteError (py "table already exists"), d)
       else (Done [], {| store_tables := sql :: store_tables d;
                         store_users := store_users d |})
  else if startswith (py "INSERT INTO users") sql
  then (Done [], {| store_tables := store_tables d;
                    store_users := (store_users d + 1)%Z |})
  else (Done [], d).

Definition store_commit (d : store) : engine_reply unit * store := (Done tt, d).

Definition empty_store : store := {| store_tables := []; store_users := 0 |}.

(** The statements of a script file, none when the file does not
    exist *)
Definition file_statements (file : option str) : list str :=
  match file with
  | Some script => script_statements script
  | None => []
  end.

(** The loop over the sample data goes on after this reply: the
    statement completed, or the engine refused it with an
    [sqlite3.Error] whose message the console takes. *)
Definition goes_on {A : Type} (out : console) (reply : engine_reply A) : bool :=
  match reply with
  | Done _ => true
  | SqliteError e => negb (present (out (InsertErrorLine e)))
  | OtherError _ => false
  end.

(** The console on which every line is written *)
Definition writes_all : console := fun _ => None.

(** The engine completes the statement *)
Definition completes {A : Type} (reply : engine_reply A) : bool :=
  match reply with
  | Done _ => true
  | _ => false
  end.


(** ** [app.py]: the query endpoint *)

(** The body of a request as the handler reads it: reading the
    question raises (no JSON object, a question that is not text), or
    gives the text of the question, empty when the key is absent. *)
Inductive request_body :=
| BodyRaises (msg : str)
| BodyQuestion (question : str).

(** The JSON document of a response *)
Inductive response_json :=
| JsonError (error : str)
| JsonResult (r : ConversionResult).

(** What a request does, in order: statements of [init_database] when
    the converter is built inside the request, then the calls of
    [convert] on the storage object. *)
Inductive request_event :=
| Building (e : db_event)
| Serving (e : event).

(** [get_converter].  [converter] is the global of that name.  [build]
    is what [TextToSQL()] does when it is called: it returns the
    converter or raises, after the statements [init_database] submitted
    if the database file was missing.  The result is what the call
    returns or raises, the global afterwards and the statements
    submitted. *)
Definition get_converter (converter : option TextToSQL)
    (build : outcome TextToSQL * list db_event) (out : console)
  : outcome (option TextToSQL) * option TextToSQL * list db_event :=
  match converter with
  | Some self => (Ret (Some self), converter, [])
  | None =>
    match build with
    | (Ret self, built) => (Ret (Some self), Some self, built)
    | (Raise e, built) =>
      match out (ConverterErrorLine e) with
      | Some msg => (Raise msg, None, built)
      | None =>
        match out ConverterHintLine with
        | Some msg => (Raise msg, None, built)
        | None => (Ret None, None, built)
        end
      end
    end
  end.

Section Endpoint.
Context {U : UnicodeDB}.

(** [query], with the global [converter] before and after the request.
    [jsonify] gives the message of the exception that serializing a
    result raises, if any (a row value that JSON cannot carry). *)
Definition query (converter : option TextToSQL)
    (build : outcome TextToSQL * list db_event)
    (out : console) (jsonify : ConversionResult -> option str)
    (body : request_body)
  : (response_json * nat) * option TextToSQL * list request_event :=
  match body with
  | BodyRaises msg =>
      ((JsonError (py "服务器错误: " ++ msg), 500%nat), converter, [])
  | BodyQuestion text =>
    let question := strip text in
    match question with
    | [] => ((JsonError (py "问题不能为空"), 400%nat), converter, [])
    | _ :: _ =>
      let '(conv, converter', built) := get_converter converter build out in
      match conv with
      | Raise msg =>
          ((JsonError (py "服务器错误: " ++ msg), 500%nat), converter',
           map Building built)
      | Ret None =>
          ((JsonError (py "系统初始化失败，请检查模型是否已加载"), 500%nat),
           converter', map Building built)
      | Ret (Some self) =>
          let (result, trace) := convert_printing self out question in
          let events := map Building built ++ map Serving trace in
          match jsonify result with
          | None => ((JsonResult result, 200%nat), converter', events)
          | Some msg =>
              ((JsonError (py "服务器错误: " ++ msg), 500%nat), converter',
               events)
          end
      end
    end
  end.

End Endpoint.

(** * Properties *)

(** ** Substrings *)

Lemma startswith_app (p t : str) : startswith p (p ++ t) = true.
Proof.
  induction p as [|x p IH]; simpl; [reflexivity|].
  now rewrite N.eqb_refl, IH.
Qed.

Lemma startswith_spec (p s : str) :
  startswith p s = true <-> exists t, s = p ++ t.
Proof.
  split.
  - revert s. induction p as [|x p IH]; intros s H.
    + now exists s.
    + destruct s as [|y s]; simpl in H; [discriminate|].
      apply andb_prop in H. destruct H as [Hxy Hp].
      apply N.eqb_eq in Hxy. subst y.
      destruct (IH _ Hp) as [t ->]. now exists t.
  - intros [t ->]. apply startswith_app.
Qed.

Lemma contains_eq (n h : str) :
  contains n h
  = startswith n h || match h with [] => false | _ :: t => contains n t end.
Proof. destruct h; reflexivity. Qed.

Lemma contains_spec (n h : str) :
  contains n h = true <-> exists a b, h = a ++ n ++ b.
Proof.
  split.
  - induction h as [|c h IH]; simpl; intros H.
    + rewrite orb_false_r in H. apply startswith_spec in H.
      destruct H as [t Ht]. now exists [], t.
    + apply orb_prop in H. destruct H as [H|H].
      * apply startswith_spec in H. destruct H as [t Ht]. now exists [], t.
      * destruct (IH H) as (a & b & ->). now exists (c :: a), b.
  - intros (a & b & ->). induction a as [|c a IH].
    + cbn [app]. rewrite contains_eq, startswith_app. reflexivity.
    + rewrite contains_eq. cbn [app]. rewrite IH. apply orb_true_r.
Qed.

Lemma contains_In (n h : str) (x : N) :
  contains n h = true -> In x n -> In x h.
Proof.
  intros H Hx. apply contains_spec in H. destruct H as (a & b & ->).
  apply in_or_app. right. apply in_or_app. now left.
Qed.

Lemma contains_prefix (n t : str) : contains n (n ++ t) = true.
Proof. apply contains_spec. now exists [], t. Qed.

Lemma endswith_app (p s : str) : endswith p (s ++ p) = true.
Proof. unfold endswith. rewrite rev_app_distr. apply startswith_app. Qed.

(** ** The components on sample inputs *)

Example clean_fences_sample :
  clean_fences (py "```SQL
SELECT 1;
```") = [83; 69; 76; 69; 67; 84; 32; 49; 59; 10].
Proof. vm_compute. reflexivity. Qed.

Example findall_lookahead_sample :
  findall match_select_lookahead (py "select a SELECT   b from users")
  = [py "select a "; py "SELECT   b from users"].
Proof. vm_compute. reflexivity. Qed.

Example extract_fenced_sample :
  _extract_sql_advanced (py "```sql
select name from products where price > 10
```") = Some (py "select name from products where price > 10;").
Proof. vm_compute. reflexivity. Qed.

Example post_process_sample :
  _post_process_sql (py "  SELECT *   FROM orders ") (py "查询订单")
  = py "SELECT * FROM orders;".
Proof. vm_compute. reflexivity. Qed.

Example price_rule_sample :
  _generate_sql_by_intent (py "查找价格高于5000的商品")
    (_analyze_question_intent (py "查找价格高于5000的商品"))
  = py "SELECT * FROM products WHERE price > 5000;".
Proof. vm_compute. reflexivity. Qed.

Example validate_sql_sample :
  validate_sql env_created_at (py "SELECT * FROM users;")
  = (Ret (true, None),
     [ValidateCalled (py "SELECT * FROM users;");
      DryRun (py "EXPLAIN QUERY PLAN SELECT * FROM users")]).
Proof. vm_compute. reflexivity. Qed.

(** ** The fallback generator *)

Section FallbackGenerator.
Context {U : UnicodeDB}.

Lemma well_formed_literal (sql : str) :
  (match sql with [] => false | _ => true end
   && contains (py "SELECT") sql && endswith (py ";") sql)%bool = true ->
  well_formed_select sql.
Proof.
  intros H. apply andb_prop in H. destruct H as [H H3].
  apply andb_prop in H. destruct H as [H1 H2].
  repeat split; trivial. intros ->. discriminate.
Qed.

Lemma well_formed_price (head digits : str) :
  startswith (py "SELECT") head = true ->
  well_formed_select (head ++ digits ++ py ";").
Proof.
  intros H. apply startswith_spec in H. destruct H as [t ->].
  split; [|split].
  - intros E. apply (f_equal (@List.length N)) in E.
    rewrite !length_app in E. vm_compute in E. discriminate.
  - rewrite <- app_assoc. apply contains_prefix.
  - rewrite app_assoc. apply endswith_app.
Qed.

Lemma intent_chain_well_formed (question : str) :
  match intent_chain question with
  | Some sql => well_formed_select sql
  | None => True
  end.
Proof.
  unfold intent_chain.
  repeat match goal with
         | |- context [if ?c then _ else _] => destruct c
         | |- context [search_class_digits ?c ?q] =>
             destruct (search_class_digits c q)
         end;
    try exact I;
    try (apply well_formed_price; vm_compute; reflexivity);
    apply well_formed_literal; vm_compute; reflexivity.
Qed.

Ltac split_bools :=
  repeat match goal with
         | H : (_ && _)%bool = true |- _ =>
             apply andb_prop in H; destruct H
         | H : negb _ = true |- _ => apply negb_true_iff in H
         | H : (_ || _)%bool = false |- _ =>
             apply orb_false_elim in H; destruct H
         end.

Lemma unrecognized_default (question : str) :
  unrecognized question = true -> intent_chain question = None.
Proof.
  unfold unrecognized, trigger_phrases. cbn [forallb]. intros H.
  split_bools. unfold intent_chain.
  repeat match goal with
         | H : contains _ _ = false |- _ => rewrite ?H; clear H
         end.
  reflexivity.
Qed.

(** C5: for every question the fallback generator returns a statement
    that is not empty, contains SELECT and ends with the separator; a
    question that holds none of the trigger phrases gets the bounded
    default statement. *)
Theorem generate_sql_by_intent_total (question : str) (intent : Intent) :
  let sql := _generate_sql_by_intent question intent in
  (sql <> [] /\ contains (py "SELECT") sql = true
   /\ endswith (py ";") sql = true)
  /\ (unrecognized question = true ->
      sql = py "SELECT * FROM order_details LIMIT 10;").
Proof.
  cbv zeta. unfold _generate_sql_by_intent. split.
  - pose proof (intent_chain_well_formed question) as H.
    destruct (intent_chain question); [exact H|].
    apply well_formed_literal. vm_compute. reflexivity.
  - intros H. now rewrite (unrecognized_default _ H).
Qed.

(** C6, as amended: a question that reaches the price rule with a price
    phrase from which the pattern extracts no digits leaves the whole
    chain: no later rule is consulted, the default statement is
    returned. *)
Theorem price_without_digits_default (question : str) (intent : Intent) :
  first_match rules_before_price question = None ->
  (price_above_phrase question || price_below_phrase question)%bool = true ->
  price_digits question = None ->
  _generate_sql_by_intent question intent
  = py "SELECT * FROM order_details LIMIT 10;".
Proof.
  unfold rules_before_price, first_match, rule_all_table, rule_named_orders,
    rule_category, price_digits, price_above_phrase, price_below_phrase,
    _generate_sql_by_intent, intent_chain.
  intros Hbefore Hphrase Hdigits.
  repeat match type of Hbefore with
         | context [if ?c then _ else _] => destruct c; try discriminate
         end.
  destruct (contains (py "价格高于") question
            || contains (py "价格大于") question)%bool.
  - now rewrite Hdigits.
  - cbn [orb] in Hphrase. rewrite Hphrase in *. now rewrite Hdigits.
Qed.

End FallbackGenerator.

Lemma generate_sql_by_intent_total_witness :
  unrecognized (py "你好") = true
  /\ _generate_sql_by_intent (py "你好") (_analyze_question_intent (py "你好"))
     = py "SELECT * FROM order_details LIMIT 10;".
Proof.
  split; [vm_compute; reflexivity|].
  apply (proj2 (generate_sql_by_intent_total (py "你好") _)).
  vm_compute; reflexivity.
Defined.

Lemma price_without_digits_default_witness :
  _generate_sql_by_intent (py "价格高于多少的详情")
    (_analyze_question_intent (py "价格高于多少的详情"))
  = py "SELECT * FROM order_details LIMIT 10;".
Proof.
  apply price_without_digits_default; vm_compute; reflexivity.
Defined.

(** C6, as stated, fails: the question holds a price phrase without
    digits and the detail phrase; the rules after the price rule would
    answer with the unbounded detail statement, the generator answers
    with the default one. *)
Lemma price_rule_hands_over_counterexample :
  ~ price_rule_hands_over (py "价格高于多少的详情").
Proof.
  intros H.
  specialize (H eq_refl eq_refl eq_refl
                (_analyze_question_intent (py "价格高于多少的详情"))).
  vm_compute in H. discriminate H.
Qed.

(** ** Whitespace *)

Lemma take_drop_while (f : N -> bool) (s : str) :
  s = take_while f s ++ drop_while f s.
Proof.
  induction s as [|c s IH]; simpl; [reflexivity|].
  destruct (f c); simpl; [now rewrite <- IH | reflexivity].
Qed.

Lemma drop_while_idem (f : N -> bool) (s : str) :
  drop_while f (drop_while f s) = drop_while f s.
Proof.
  induction s as [|c s IH]; simpl; [reflexivity|].
  destruct (f c) eqn:E; [exact IH | simpl; now rewrite E].
Qed.

Lemma drop_while_head (f : N -> bool) (s : str) :
  match drop_while f s with
  | [] => True
  | c :: _ => f c = false
  end.
Proof.
  induction s as [|c s IH]; simpl; [exact I|].
  destruct (f c) eqn:E; [exact IH | exact E].
Qed.

Lemma drop_while_fixed (f : N -> bool) (s : str) :
  match s with [] => True | c :: _ => f c = false end ->
  drop_while f s = s.
Proof. destruct s as [|c s]; simpl; [reflexivity | now intros ->]. Qed.

(** [rstrip] keeps a prefix. *)
Lemma rstrip_prefix (s : str) :
  s = rstrip s ++ rev (take_while is_space (rev s)).
Proof.
  unfold rstrip. rewrite <- rev_app_distr, <- take_drop_while.
  now rewrite rev_involutive.
Qed.

Lemma rstrip_idem (s : str) : rstrip (rstrip s) = rstrip s.
Proof.
  unfold rstrip. now rewrite rev_involutive, drop_while_idem.
Qed.

Lemma rstrip_head (s : str) :
  match s with [] => True | c :: _ => is_space c = false end ->
  match rstrip s with [] => True | c :: _ => is_space c = false end.
Proof.
  intros H. pose proof (rstrip_prefix s) as E.
  destruct (rstrip s) as [|c r]; [exact I|].
  rewrite E in H. exact H.
Qed.

Lemma strip_head (s : str) :
  match strip s with [] => True | c :: _ => is_space c = false end.
Proof. apply rstrip_head, drop_while_head. Qed.

Lemma lstrip_strip (s : str) : lstrip (strip s) = strip s.
Proof. apply drop_while_fixed, strip_head. Qed.

Lemma strip_idem (s : str) : strip (strip s) = strip s.
Proof.
  unfold strip at 1. rewrite lstrip_strip. unfold strip. apply rstrip_idem.
Qed.

Lemma collapse_spaces_head (c : N) (s : str) :
  is_space c = false -> collapse_spaces (c :: s) = c :: collapse_spaces s.
Proof. intros H. simpl. now rewrite H. Qed.

Lemma collapse_spaces_tidy (s : str) : tidy (collapse_spaces s).
Proof.
  induction s as [|c s IH]; [exact I|].
  cbn [collapse_spaces]. destruct (is_space c) eqn:Ec.
  - destruct s as [|c' s']; [now repeat split|].
    destruct (is_space c') eqn:Ec'; [exact IH|].
    split; [|exact IH]. intros _. split; [reflexivity|].
    now rewrite (collapse_spaces_head _ _ Ec').
  - split; [|exact IH]. intros H. congruence.
Qed.

Lemma tidy_collapse_spaces (s : str) : tidy s -> collapse_spaces s = s.
Proof.
  induction s as [|c s IH]; [reflexivity|].
  intros [Hc Hs]. cbn [collapse_spaces]. destruct (is_space c) eqn:Ec.
  - destruct (Hc eq_refl) as [-> Hnext].
    destruct s as [|c' s']; [reflexivity|].
    rewrite Hnext. f_equal. now apply IH.
  - f_equal. now apply IH.
Qed.

Lemma tidy_suffix (a b : str) : tidy (a ++ b) -> tidy b.
Proof.
  induction a as [|c a IH]; [trivial|]. intros [_ H]. now apply IH.
Qed.

Lemma tidy_prefix (a b : str) : tidy (a ++ b) -> tidy a.
Proof.
  induction a as [|c a IH]; [intros; exact I|]. cbn [app tidy].
  intros [Hc H]. split; [|now apply IH].
  intros E. destruct (Hc E) as [-> Hn]. split; [reflexivity|].
  destruct a; [exact I | exact Hn].
Qed.

Lemma tidy_strip (s : str) : tidy s -> tidy (strip s).
Proof.
  intros H. unfold strip.
  apply tidy_prefix with (b := rev (take_while is_space (rev (lstrip s)))).
  rewrite <- rstrip_prefix. unfold lstrip.
  apply tidy_suffix with (a := take_while is_space s).
  now rewrite <- take_drop_while.
Qed.

Lemma collapse_spaces_snoc (s : str) (c : N) :
  is_space c = false ->
  collapse_spaces (s ++ [c]) = collapse_spaces s ++ [c].
Proof.
  intros Hc. induction s as [|x s IH].
  - simpl. now rewrite Hc.
  - cbn [app collapse_spaces]. destruct (is_space x).
    + destruct s as [|y s']; cbn [app].
      * rewrite Hc. simpl. now rewrite Hc.
      * cbn [app] in IH. destruct (is_space y); [exact IH|].
        now rewrite IH.
    + now rewrite IH.
Qed.

Lemma strip_snoc (s : str) (c : N) :
  is_space c = false -> lstrip s = s -> strip (s ++ [c]) = s ++ [c].
Proof.
  intros Hc Hs. unfold strip.
  assert (lstrip (s ++ [c]) = s ++ [c]) as ->.
  { apply drop_while_fixed. destruct s as [|x s']; [exact Hc|].
    pose proof (drop_while_head is_space (x :: s')) as H.
    unfold lstrip in Hs. rewrite Hs in H. exact H. }
  unfold rstrip. rewrite rev_app_distr. simpl. rewrite Hc.
  change (c :: rev s) with (rev [c] ++ rev s).
  now rewrite <- rev_app_distr, rev_involutive.
Qed.

(** ** The post-processor *)

Section PostProcessor.
Context {U : UnicodeDB}.

Lemma upper_char_cased (c x : N) :
  In x (upper_char c) -> is_ascii_lower x = false.
Proof.
  unfold upper_char. destruct (is_ascii c) eqn:Ea.
  - intros [<- | []]. unfold ascii_toupper.
    destruct (is_ascii_lower c) eqn:El; [|exact El].
    unfold is_ascii_lower in *. apply andb_prop in El. destruct El as [_ El].
    apply N.leb_le in El.
    destruct (N.leb_spec 97 (c - 32)); [lia | reflexivity].
  - destruct (is_cjk c) eqn:Ec; [|now apply upper_other_cased].
    intros [<- | []]. unfold is_cjk in Ec. apply andb_prop in Ec.
    destruct Ec as [Ec _]. apply N.leb_le in Ec. unfold is_ascii_lower.
    destruct (N.leb_spec c 122); [lia | apply andb_false_r].
Qed.

Lemma upper_cased (s : str) (x : N) :
  In x (upper s) -> is_ascii_lower x = false.
Proof.
  unfold upper. rewrite in_flat_map. intros (c & _ & H).
  now apply upper_char_cased with c.
Qed.

(** An upper-cased text holds no lower-case table name. *)
Lemma users_not_in_upper (s : str) : contains (py "users") (upper s) = false.
Proof.
  destruct (contains (py "users") (upper s)) eqn:E; [|reflexivity].
  apply contains_In with (x := 117) in E; [|vm_compute; auto].
  apply upper_cased in E. vm_compute in E. discriminate E.
Qed.

(** The repair of [_post_process_sql] is never applied. *)
Lemma post_process_is_normalize (sql question : str) :
  _post_process_sql sql question = normalize_sql sql.
Proof.
  unfold _post_process_sql. rewrite users_not_in_upper. cbn [andb].
  now destruct (contains (py "张三") question
                && negb (contains (py "张三") (normalize_sql sql)))%bool.
Qed.

Lemma ensure_semicolon_idem (s : str) :
  ensure_semicolon (ensure_semicolon s) = ensure_semicolon s.
Proof.
  unfold ensure_semicolon at 2.
  destruct (endswith (py ";") s) eqn:E; cbn [negb].
  - unfold ensure_semicolon. now rewrite E.
  - unfold ensure_semicolon. now rewrite endswith_app, E.
Qed.

Lemma normalize_sql_idem (sql : str) :
  normalize_sql (normalize_sql sql) = normalize_sql sql.
Proof.
  pose proof (tidy_strip _ (collapse_spaces_tidy sql)) as Htidy.
  pose proof (strip_idem (collapse_spaces sql)) as Hstrip.
  pose proof (lstrip_strip (collapse_spaces sql)) as Hl.
  unfold normalize_sql.
  set (t := strip (collapse_spaces sql)) in *.
  destruct (endswith (py ";") t) eqn:E.
  - assert (ensure_semicolon t = t) as ->
        by (unfold ensure_semicolon; now rewrite E).
    rewrite (tidy_collapse_spaces _ Htidy), Hstrip.
    unfold ensure_semicolon. now rewrite E.
  - assert (ensure_semicolon t = t ++ [59]) as ->
        by (unfold ensure_semicolon; now rewrite E).
    rewrite collapse_spaces_snoc by reflexivity.
    rewrite (tidy_collapse_spaces _ Htidy).
    rewrite strip_snoc by (reflexivity || exact Hl).
    unfold ensure_semicolon. change [59] with (py ";").
    now rewrite endswith_app.
Qed.

(** C8: applying the post-processor twice yields the text of applying it
    once. *)
Theorem post_process_idempotent (sql question : str) :
  _post_process_sql (_post_process_sql sql question) question
  = _post_process_sql sql question.
Proof.
  rewrite !post_process_is_normalize. apply normalize_sql_idem.
Qed.

(** C4, at the input where it fails: the question names 张三, the
    statement reads the users table without naming 张三 and without a
    WHERE clause, and the post-processor returns the statement as it
    is, without the clause. *)
Theorem post_process_leaves_users_query :
  let question := py "查询张三的信息" in
  let sql := py "SELECT * FROM users;" in
  contains (py "张三") question = true
  /\ contains (py "张三") sql = false
  /\ ci_contains (py "USERS") sql = true
  /\ ci_contains (py "WHERE") sql = false
  /\ _post_process_sql sql question = py "SELECT * FROM users;"
  /\ _post_process_sql sql question
     <> py "SELECT * FROM users WHERE username = '张三';".
Proof.
  cbv zeta. rewrite post_process_is_normalize.
  repeat split; try (vm_compute; reflexivity).
  vm_compute. discriminate.
Qed.

End PostProcessor.

(** ** The validator *)

Ltac cmp_cases :=
  repeat match goal with
         | |- context [N.leb ?a ?b] => destruct (N.leb_spec a b); try lia
         | |- context [N.eqb ?a ?b] => destruct (N.eqb_spec a b); try lia
         | |- context [N.ltb ?a ?b] => destruct (N.ltb_spec a b); try lia
         end.

Lemma letter_range (c k : N) :
  is_ascii_upper k = true -> ascii_toupper c = k -> 65 <= c <= 122.
Proof.
  unfold is_ascii_upper, ascii_toupper, is_ascii_lower. intros Hk E.
  apply andb_prop in Hk. destruct Hk as [H1 H2].
  apply N.leb_le in H1. apply N.leb_le in H2.
  destruct (N.leb_spec 97 c); destruct (N.leb_spec c 122);
    cbn [andb] in E; lia.
Qed.

Lemma letter_not_space (c : N) : 65 <= c <= 122 -> is_space c = false.
Proof. intros H. unfold is_space. cmp_cases; try reflexivity. Qed.

(** Stripping keeps an occurrence of a text without whitespace. *)
Lemma lstrip_keeps (pre mid post : str) :
  mid <> [] -> forallb (fun c => negb (is_space c)) mid = true ->
  exists pre', lstrip (pre ++ mid ++ post) = pre' ++ mid ++ post.
Proof.
  intros Hne Hmid. induction pre as [|c pre IH].
  - exists []. destruct mid as [|m mid]; [contradiction|].
    cbn [forallb] in Hmid. apply andb_prop in Hmid. destruct Hmid as [Hm _].
    apply negb_true_iff in Hm. cbn [app]. unfold lstrip. cbn [drop_while].
    now rewrite Hm.
  - unfold lstrip. cbn [app drop_while]. destruct (is_space c).
    + exact IH.
    + now exists (c :: pre).
Qed.

Lemma strip_keeps (pre mid post : str) :
  mid <> [] -> forallb (fun c => negb (is_space c)) mid = true ->
  exists pre' post', strip (pre ++ mid ++ post) = pre' ++ mid ++ post'.
Proof.
  intros Hne Hmid. unfold strip.
  destruct (lstrip_keeps pre mid post Hne Hmid) as [pre' ->].
  assert (Hrev : rev mid <> []).
  { intros E. apply Hne. now rewrite <- (rev_involutive mid), E. }
  assert (Hrmid : forallb (fun c => negb (is_space c)) (rev mid) = true).
  { rewrite forallb_forall in *. intros x Hx. apply Hmid.
    now apply in_rev. }
  destruct (lstrip_keeps (rev post) (rev mid) (rev pre') Hrev Hrmid)
    as [post' E].
  exists pre', (rev post'). unfold rstrip.
  rewrite !rev_app_distr, <- app_assoc. unfold lstrip in E. rewrite E.
  rewrite !rev_app_distr, !rev_involutive. now rewrite <- app_assoc.
Qed.

Section Validator.
Context {U : UnicodeDB}.

Lemma upper_app (a b : str) : upper (a ++ b) = upper a ++ upper b.
Proof. apply flat_map_app. Qed.

Lemma upper_letters (mid kw : str) :
  forallb is_ascii_upper kw = true -> map ascii_toupper mid = kw ->
  upper mid = kw
  /\ forallb (fun c => negb (is_space c)) mid = true.
Proof.
  revert kw. induction mid as [|c mid IH]; intros kw Hkw E.
  - now subst kw.
  - destruct kw as [|k kw]; [discriminate|]. cbn [map] in E.
    injection E as Ec Emid. cbn [forallb] in Hkw. apply andb_prop in Hkw.
    destruct Hkw as [Hk Hkw]. destruct (IH _ Hkw Emid) as [Hup Hsp].
    pose proof (letter_range _ _ Hk Ec) as Hr. split.
    + unfold upper in *. cbn [flat_map]. rewrite Hup. unfold upper_char.
      assert (is_ascii c = true) as -> by (apply N.ltb_lt; lia).
      cbn [app]. now rewrite Ec.
    + cbn [forallb]. now rewrite (letter_not_space _ Hr), Hsp.
Qed.

(** A keyword that occurs in the statement, in whatever case, occurs in
    the stripped and upper-cased statement. *)
Lemma ci_contains_upper_strip (kw sql : str) :
  kw <> [] -> forallb is_ascii_upper kw = true ->
  ci_contains kw sql = true -> contains kw (upper (strip sql)) = true.
Proof.
  intros Hne Hkw H. unfold ci_contains in H. apply contains_spec in H.
  destruct H as (a & b & E).
  apply map_eq_app in E. destruct E as (pre & rest & -> & _ & E).
  apply map_eq_app in E. destruct E as (mid & post & -> & Emid & _).
  destruct (upper_letters mid kw Hkw Emid) as [Hup Hsp].
  assert (Hmid : mid <> []).
  { intros ->. apply Hne. now rewrite <- Emid. }
  destruct (strip_keeps pre mid post Hmid Hsp) as (pre' & post' & ->).
  rewrite !upper_app, Hup. apply contains_spec. now eexists _, _.
Qed.

Lemma dangerous_keywords_upper (kw : str) :
  In kw dangerous_keywords ->
  kw <> [] /\ forallb is_ascii_upper kw = true.
Proof.
  unfold dangerous_keywords. cbn [In].
  intros H; repeat destruct H as [<- | H]; try contradiction;
    (split; [vm_compute; discriminate | vm_compute; reflexivity]).
Qed.

(** C2: a statement that holds one of the dangerous keywords, in
    whatever case and wherever, is rejected by [validate_sql] with the
    forbidden-operation message, before any dry run or execution; hence
    a statement that [validate_sql] accepts holds none of them. *)
Theorem validate_sql_rejects_dangerous (env : Env) (sql : str) :
  (forall keyword,
      In keyword dangerous_keywords -> ci_contains keyword sql = true ->
      exists found,
        In found dangerous_keywords
        /\ validate_sql env sql
           = (Ret (false, Some (forbidden_message found)),
              [ValidateCalled sql]))
  /\ (forall message trace,
         validate_sql env sql = (Ret (true, message), trace) ->
         forall keyword,
           In keyword dangerous_keywords -> ci_contains keyword sql = false).
Proof.
  assert (Hscan : forall keyword,
             In keyword dangerous_keywords -> ci_contains keyword sql = true ->
             exists found, find_dangerous sql = Some found
                           /\ In found dangerous_keywords).
  { intros kw Hin Hci. destruct (dangerous_keywords_upper kw Hin) as [Hne Hup].
    pose proof (ci_contains_upper_strip kw sql Hne Hup Hci) as Hc.
    unfold find_dangerous.
    destruct (find _ dangerous_keywords) as [found|] eqn:Ef.
    - exists found. split; [reflexivity|]. now apply find_some in Ef.
    - apply find_none with (x := kw) in Ef; [|exact Hin].
      cbv beta in Ef. congruence. }
  split.
  - intros kw Hin Hci. destruct (Hscan kw Hin Hci) as (found & Ef & Hf).
    exists found. split; [exact Hf|].
    unfold validate_sql. now rewrite Ef.
  - intros message trace Hv kw Hin.
    destruct (ci_contains kw sql) eqn:Hci; [|reflexivity].
    destruct (Hscan kw Hin Hci) as (found & Ef & _).
    unfold validate_sql in Hv. rewrite Ef in Hv. discriminate Hv.
Qed.

End Validator.

Lemma validate_sql_rejects_dangerous_witness :
  exists found,
    In found dangerous_keywords
    /\ validate_sql env_created_at (py "select * from users; Drop table users;")
       = (Ret (false, Some (forbidden_message found)),
          [ValidateCalled (py "select * from users; Drop table users;")]).
Proof.
  apply (proj1 (validate_sql_rejects_dangerous env_created_at
                  (py "select * from users; Drop table users;"))
           (py "DROP")).
  - vm_compute. tauto.
  - vm_compute. reflexivity.
Defined.

(** ** The extractor *)

Section Extractor.
Context {U : UnicodeDB}.

Lemma try_matches_none (matches : list str) :
  (forall m, In m matches -> _validate_sql_candidate (strip m) = false) ->
  try_matches matches = None.
Proof.
  induction matches as [|m rest IH]; intros H; [reflexivity|].
  cbn [try_matches]. rewrite (H m (or_introl eq_refl)).
  apply IH. intros m' Hm'. apply H. now right.
Qed.

(** The matches of one pattern: the first valid one is returned. *)
Lemma try_matches_first_valid (before : list str) (m : str)
      (after : list str) :
  (forall m', In m' before -> _validate_sql_candidate (strip m') = false) ->
  _validate_sql_candidate (strip m) = true ->
  try_matches (before ++ m :: after) = Some (ensure_semicolon (strip m)).
Proof.
  intros Hbefore Hm. induction before as [|b before IH].
  - cbn [app try_matches]. now rewrite Hm.
  - cbn [app try_matches]. rewrite (Hbefore b (or_introl eq_refl)).
    apply IH. intros m' Hm'. apply Hbefore. now right.
Qed.

(** The patterns: one is reached when all matches of those before it
    are invalid. *)
Lemma try_patterns_skip (earlier later : list (str -> option str))
      (text : str) :
  (forall p m, In p earlier -> In m (findall p text) ->
               _validate_sql_candidate (strip m) = false) ->
  try_patterns (earlier ++ later) text = try_patterns later text.
Proof.
  intros H. induction earlier as [|p earlier IH]; [reflexivity|].
  cbn [app try_patterns]. rewrite try_matches_none.
  - apply IH. intros p' m Hp'. apply H. now right.
  - intros m. apply H. now left.
Qed.

Lemma endswith_suffix (p s : str) :
  endswith p s = true -> exists body, s = body ++ p.
Proof.
  unfold endswith. intros H. apply startswith_spec in H.
  destruct H as [t E]. exists (rev t).
  rewrite <- (rev_involutive s), E, rev_app_distr.
  now rewrite rev_involutive.
Qed.

(** C7: the matches of a pattern are tried in order of appearance and
    the first one that passes the structural validation is returned; a
    pattern is reached only when every match of the patterns before it
    fails.  With two candidates of which only the second is valid, the
    second is returned.  The statement returned is the stripped match
    itself when that ends with the separator and the stripped match
    followed by the separator otherwise: in both cases it ends with
    the separator. *)
Theorem extract_returns_first_valid :
  forall (text : str) (earlier later : list (str -> option str))
         (pattern : str -> option str) (before after : list str) (m : str),
    sql_patterns = earlier ++ pattern :: later ->
    (forall p m', In p earlier -> In m' (findall p (clean_fences text)) ->
                  _validate_sql_candidate (strip m') = false) ->
    findall pattern (clean_fences text) = before ++ m :: after ->
    (forall m', In m' before -> _validate_sql_candidate (strip m') = false) ->
    _validate_sql_candidate (strip m) = true ->
    exists sql,
      _extract_sql_advanced text = Some sql
      /\ sql = (if endswith (py ";") (strip m) then strip m
                else strip m ++ py ";")
      /\ exists body, sql = body ++ py ";".
Proof.
  intros text earlier later pattern before after m Hpat Hearlier Hfind
         Hbefore Hm.
  exists (ensure_semicolon (strip m)). split; [|split].
  - unfold _extract_sql_advanced. rewrite Hpat.
    rewrite (try_patterns_skip _ _ _ Hearlier). cbn [try_patterns].
    rewrite Hfind. now rewrite (try_matches_first_valid _ _ _ Hbefore Hm).
  - unfold ensure_semicolon. now destruct (endswith (py ";") (strip m)).
  - unfold ensure_semicolon.
    destruct (endswith (py ";") (strip m)) eqn:E; cbn [negb].
    + now apply endswith_suffix.
    + now exists (strip m).
Qed.

End Extractor.

Lemma extract_returns_first_valid_witness :
  (findall match_select_semicolon (clean_fences two_statements)
   = [py "SELECT name;"; py "SELECT * FROM users;"]
   /\ _validate_sql_candidate (py "SELECT name;") = false
   /\ _extract_sql_advanced two_statements = Some (py "SELECT * FROM users;"))
  /\ (findall match_select_semicolon
        (clean_fences (py "SELECT name SELECT * FROM users")) = []
      /\ findall match_select_lookahead
           (clean_fences (py "SELECT name SELECT * FROM users"))
         = [py "SELECT name "; py "SELECT * FROM users"]
      /\ _validate_sql_candidate (py "SELECT name") = false
      /\ _extract_sql_advanced (py "SELECT name SELECT * FROM users")
         = Some (py "SELECT * FROM users;")).
Proof.
  split.
  - split; [vm_compute; reflexivity|]. split; [vm_compute; reflexivity|].
    destruct (extract_returns_first_valid two_statements []
                [match_select_lookahead; match_select_rest]
                match_select_semicolon [py "SELECT name;"] []
                (py "SELECT * FROM users;")) as (sql & E & Esql & _).
    + reflexivity.
    + intros p m' [].
    + vm_compute; reflexivity.
    + intros m' [<- | []]. vm_compute; reflexivity.
    + vm_compute; reflexivity.
    + rewrite E, Esql. vm_compute. reflexivity.
  - split; [vm_compute; reflexivity|]. split; [vm_compute; reflexivity|].
    split; [vm_compute; reflexivity|].
    destruct (extract_returns_first_valid
                (py "SELECT name SELECT * FROM users")
                [match_select_semicolon] [match_select_rest]
                match_select_lookahead [py "SELECT name "] []
                (py "SELECT * FROM users")) as (sql & E & Esql & _).
    + reflexivity.
    + intros p m' [<- | []] Hm'. vm_compute in Hm'. destruct Hm'.
    + vm_compute; reflexivity.
    + intros m' [<- | []]. vm_compute; reflexivity.
    + vm_compute; reflexivity.
    + rewrite E, Esql. vm_compute. reflexivity.
Defined.

(** ** The orchestrator *)

Section OrchestratorProperties.
Context {U : UnicodeDB}.

(** C10: the fallback path hands the generated statement to
    [execute_query] and to nothing else: [validate_sql] is not called,
    no dry run is made. *)
Theorem smart_fallback_skips_validator (env : Env) (question : str) :
  let sql :=
    _generate_sql_by_intent question (_analyze_question_intent question) in
  snd (_smart_fallback env question) = [Executed sql]
  /\ (forall s, ~ In (ValidateCalled s) (snd (_smart_fallback env question)))
  /\ (forall s, ~ In (DryRun s) (snd (_smart_fallback env question))).
Proof.
  cbv zeta.
  assert (E : snd (_smart_fallback env question)
              = [Executed (_generate_sql_by_intent question
                             (_analyze_question_intent question))]).
  { unfold _smart_fallback, execute_query.
    destruct (engine_execute env _) as [[columns results] | e | e];
      reflexivity. }
  rewrite E. repeat split; intros s [H | []]; discriminate H.
Qed.

(** C9: on the fallback path the question about the number of products
    per category yields the GROUP BY statement, and rows that map 手机
    to 2 and 电脑 to 1 are summarized as the statistics sentence. *)
Theorem category_count_end_to_end (env : Env) (columns : list str) :
  let question := py "统计每个分类的商品数量" in
  let sql := py "SELECT category, COUNT(*) as product_count FROM products GROUP BY category;" in
  _generate_sql_by_intent question (_analyze_question_intent question) = sql
  /\ (model_loaded env = false ->
      engine_execute env sql = Done (columns, category_rows) ->
      exists r,
        convert env question = (r, [Executed sql])
        /\ cr_success r = true
        /\ cr_method r = Some intent_based_fallback
        /\ cr_sql r = Some sql
        /\ cr_summary r = Some (py "统计结果: 手机: 2, 电脑: 1")).
Proof.
  cbv zeta.
  assert (E : _generate_sql_by_intent (py "统计每个分类的商品数量")
                (_analyze_question_intent (py "统计每个分类的商品数量"))
              = py "SELECT category, COUNT(*) as product_count FROM products GROUP BY category;")
    by (vm_compute; reflexivity).
  split; [exact E|]. intros Hmodel Hrows.
  unfold convert, convert_body, _smart_fallback, execute_query.
  rewrite Hmodel, E, Hrows. cbn [negb].
  eexists. split; [reflexivity|].
  repeat split; vm_compute; reflexivity.
Qed.

End OrchestratorProperties.

Lemma category_count_end_to_end_witness :
  exists r,
    convert env_categories (py "统计每个分类的商品数量")
    = (r, [Executed (py "SELECT category, COUNT(*) as product_count FROM products GROUP BY category;")])
    /\ cr_success r = true
    /\ cr_method r = Some intent_based_fallback
    /\ cr_sql r = Some (py "SELECT category, COUNT(*) as product_count FROM products GROUP BY category;")
    /\ cr_summary r = Some (py "统计结果: 手机: 2, 电脑: 1").
Proof.
  apply (proj2 (category_count_end_to_end env_categories
                  [py "category"; py "product_count"]));
    reflexivity.
Defined.

Section OrchestratorFailures.
Context {U : UnicodeDB}.

Lemma ensure_semicolon_nonempty (s : str) : ensure_semicolon s <> [].
Proof.
  unfold ensure_semicolon. destruct (endswith (py ";") s) eqn:E; cbn [negb].
  - intros ->. discriminate E.
  - destruct s; discriminate.
Qed.

Lemma try_matches_nonempty (matches : list str) (sql : str) :
  try_matches matches = Some sql -> sql <> [].
Proof.
  induction matches as [|m rest IH]; cbn [try_matches]; [discriminate|].
  destruct (_validate_sql_candidate (strip m)); [|exact IH].
  intros E. injection E as <-. apply ensure_semicolon_nonempty.
Qed.

Lemma extract_nonempty (text sql : str) :
  _extract_sql_advanced text = Some sql -> sql <> [].
Proof.
  unfold _extract_sql_advanced. generalize (clean_fences text) as t.
  intros t. induction sql_patterns as [|p ps IH]; cbn [try_patterns];
    [discriminate|].
  destruct (try_matches (findall p t)) eqn:E; [|exact IH].
  intros E'. injection E' as <-. now apply try_matches_nonempty in E.
Qed.

(** The events of [validate_sql]: the call and at most the dry run. *)
Lemma validate_sql_events (env : Env) (sql : str)
      (o : outcome (bool * option str)) (trace : list event) :
  validate_sql env sql = (o, trace) ->
  forall s, ~ In (Executed s) trace.
Proof.
  unfold validate_sql. destruct (find_dangerous sql) as [keyword|].
  - intros E. injection E as <- <-. intros x [H | []]. discriminate H.
  - destruct (engine_explain env _) as [[] | e | e]; intros E;
      injection E as <- <-; intros x [H | [H | []]]; discriminate H.
Qed.

(** The model path once a candidate is extracted. *)
Lemma convert_body_model_path (env : Env) (question candidate : str) :
  model_loaded env = true ->
  generate_sql env (build_prompt env question) <> [] ->
  _extract_sql_advanced (generate_sql env (build_prompt env question))
  = Some candidate ->
  convert_body env question
  = (let sql := _post_process_sql candidate question in
     v <- validate_sql env sql ;;
     let '(is_valid, error_msg) := v in
     if negb is_valid then
       ret {| cr_success := false;
              cr_error := Some (py "SQL语法错误: " ++ str_of_message error_msg);
              cr_question := question; cr_sql := Some sql;
              cr_result := None; cr_summary := None; cr_method := None;
              cr_intent_analysis := None |}
     else
       result <- execute_query env sql ;;
       let summary := _generate_intelligent_summary question sql result in
       ret {| cr_success := true; cr_error := None;
              cr_question := question; cr_sql := Some sql;
              cr_result := Some result; cr_summary := Some summary;
              cr_method := Some llm;
              cr_intent_analysis := Some (_analyze_question_intent question) |}).
Proof.
  intros Hmodel Htext Hextract. unfold convert_body.
  rewrite Hmodel. cbn [negb].
  destruct (generate_sql env (build_prompt env question)) as [|c text];
    [contradiction|].
  rewrite Hextract. pose proof (extract_nonempty _ _ Hextract) as Hne.
  destruct candidate; [contradiction | reflexivity].
Qed.

(** The paths of [convert_body]: the fallback, or the model path with
    some extracted candidate. *)
Lemma convert_body_paths (env : Env) (question : str) :
  convert_body env question = _smart_fallback env question
  \/ exists candidate,
      model_loaded env = true
      /\ generate_sql env (build_prompt env question) <> []
      /\ _extract_sql_advanced (generate_sql env (build_prompt env question))
         = Some candidate.
Proof.
  unfold convert_body. destruct (model_loaded env); cbn [negb];
    [|now left].
  destruct (generate_sql env (build_prompt env question)) as [|c text] eqn:Et;
    [now left|].
  destruct (_extract_sql_advanced (c :: text)) as [candidate|] eqn:Ex;
    [|now left].
  right. exists candidate.
  split; [reflexivity | split; [discriminate | reflexivity]].
Qed.

(** C1, as amended: on the model path a rejection by the validator,
    for security or for syntax, ends the request: the result is a
    failure whose error is the rejection message after the prefix
    "SQL语法错误: ", with the question and the rejected statement; the
    fallback path is not taken and nothing is executed. *)
Theorem rejection_is_terminal
    (env : Env) (question candidate : str) (message : option str)
    (trace : list event) :
  model_loaded env = true ->
  generate_sql env (build_prompt env question) <> [] ->
  _extract_sql_advanced (generate_sql env (build_prompt env question))
  = Some candidate ->
  validate_sql env (_post_process_sql candidate question)
  = (Ret (false, message), trace) ->
  convert env question
  = ({| cr_success := false;
        cr_error := Some (py "SQL语法错误: " ++ str_of_message message);
        cr_question := question;
        cr_sql := Some (_post_process_sql candidate question);
        cr_result := None; cr_summary := None; cr_method := None;
        cr_intent_analysis := None |}, trace)
  /\ (forall sql, ~ In (Executed sql) trace).
Proof.
  intros Hmodel Htext Hextract Hvalidate. split.
  - unfold convert.
    rewrite (convert_body_model_path _ _ _ Hmodel Htext Hextract).
    cbv zeta. unfold bind at 1. rewrite Hvalidate. cbn [negb ret].
    now rewrite app_nil_r.
  - exact (validate_sql_events _ _ _ _ Hvalidate).
Qed.

End OrchestratorFailures.

Section ExecutionFailure.
Context {U : UnicodeDB}.

Ltac run_request :=
  cbv [convert _smart_fallback execute_query validate_sql bind tell ret
       raise fst snd app negb In] in *.

Ltac executed_statement H :=
  repeat match type of H with
         | _ \/ _ => destruct H as [H | H]
         | False => contradiction
         | Executed _ = Executed _ => injection H as H; subst
         | _ = _ => discriminate H
         end.

(** C3, as amended: when the storage engine fails during execution, on
    the model path or on the fallback path, the conversion result is a
    success without an error key: the message is, as it is, the error
    of the nested query result, and the summary is the failure sentence
    with the message.  Only an exception of the engine that is not an
    [sqlite3.Error] gives a failure result, whose error is the message
    after the prefix "转换过程出错: ". *)
Theorem execution_failure_is_summarized
    (env : Env) (question sql message : str) :
  In (Executed sql) (snd (convert env question)) ->
  (engine_execute env sql = SqliteError message ->
   let r := fst (convert env question) in
   cr_success r = true
   /\ cr_error r = None
   /\ cr_sql r = Some sql
   /\ cr_result r
      = Some {| qr_success := false; qr_error := Some message;
                qr_columns := []; qr_data := []; qr_row_count := 0 |}
   /\ cr_summary r = Some (py "查询执行失败: " ++ message))
  /\ (engine_execute env sql = OtherError message ->
      let r := fst (convert env question) in
      cr_success r = false
      /\ cr_error r = Some (py "转换过程出错: " ++ message)
      /\ cr_result r = None).
Proof.
  intros Hin.
  destruct (convert_body_paths env question)
    as [E | (candidate & Hmodel & Htext & Hextract)].
  - unfold convert in *. rewrite E in *. clear E.
    unfold _smart_fallback in *. cbv zeta in *.
    remember (_generate_sql_by_intent question
                (_analyze_question_intent question)) as sql0 eqn:Esql.
    clear Esql.
    run_request.
    destruct (engine_execute env sql0) as [[columns results] | e | e] eqn:Ee;
      run_request; executed_statement Hin;
      (split; intros Es; rewrite Es in Ee; try discriminate Ee;
       injection Ee as <-; repeat split).
  - unfold convert in *.
    rewrite (convert_body_model_path _ _ _ Hmodel Htext Hextract) in *.
    cbv zeta in *.
    remember (_post_process_sql candidate question) as sql1 eqn:Esql.
    clear Esql.
    run_request.
    destruct (find_dangerous sql1); [run_request; executed_statement Hin|].
    destruct (engine_explain env _) as [[] | e | e];
      [|run_request; executed_statement Hin..].
    destruct (engine_execute env sql1) as [[columns results] | e | e] eqn:Ee;
      run_request; executed_statement Hin;
      (split; intros Es; rewrite Es in Ee; try discriminate Ee;
       injection Ee as <-; repeat split).
Qed.

End ExecutionFailure.

Lemma execution_failure_is_summarized_witness :
  let r := fst (convert env_no_tables (py "查询所有用户")) in
  cr_success r = true
  /\ cr_error r = None
  /\ cr_sql r = Some (py "SELECT * FROM users;")
  /\ cr_result r
     = Some {| qr_success := false;
               qr_error := Some (py "no such table: users");
               qr_columns := []; qr_data := []; qr_row_count := 0 |}
  /\ cr_summary r = Some (py "查询执行失败: no such table: users").
Proof.
  apply (proj1 (execution_failure_is_summarized env_no_tables
                  (py "查询所有用户") (py "SELECT * FROM users;")
                  (py "no such table: users")
                  ltac:(vm_compute; tauto))).
  reflexivity.
Defined.

(** C3, as stated, fails: without tables the engine fails on the
    statement of the fallback path, and the conversion result carries
    no error. *)
Lemma execution_failure_in_error_counterexample :
  ~ execution_failure_in_error env_no_tables (py "查询所有用户").
Proof.
  intros H.
  specialize (H (py "SELECT * FROM users;") (py "no such table: users")
                ltac:(vm_compute; tauto) eq_refl).
  vm_compute in H. discriminate H.
Qed.

Lemma rejection_is_terminal_witness :
  convert env_created_at (py "查询用户")
  = ({| cr_success := false;
        cr_error :=
          Some (py "SQL语法错误: 不允许执行 CREATE 操作，仅支持 SELECT 查询");
        cr_question := py "查询用户";
        cr_sql := Some (py "SELECT username, created_at FROM users;");
        cr_result := None; cr_summary := None; cr_method := None;
        cr_intent_analysis := None |},
     [ValidateCalled (py "SELECT username, created_at FROM users;")]).
Proof.
  destruct (rejection_is_terminal env_created_at (py "查询用户")
              (py "SELECT username, created_at FROM users;")
              (Some (forbidden_message (py "CREATE")))
              [ValidateCalled (py "SELECT username, created_at FROM users;")]
              eq_refl ltac:(vm_compute; discriminate)
              ltac:(vm_compute; reflexivity)
              ltac:(vm_compute; reflexivity)) as [E _].
  rewrite E. vm_compute. reflexivity.
Defined.

(** C1, as stated, fails: the model's statement reads the [created_at]
    column, the validator rejects it for the keyword CREATE, and the
    request ends as a failure: no fallback, no execution, no summary. *)
Lemma rejection_falls_back_counterexample :
  ~ rejection_falls_back env_created_at (py "查询用户").
Proof.
  intros H.
  specialize (H (py "SELECT username, created_at FROM users;")
                (Some (forbidden_message (py "CREATE")))
                [ValidateCalled (py "SELECT username, created_at FROM users;")]
                eq_refl ltac:(vm_compute; discriminate)
                ltac:(vm_compute; reflexivity)
                ltac:(vm_compute; reflexivity)).
  vm_compute in H. destruct H as [H _]. discriminate H.
Qed.

(** * Further properties of the code *)

(** ** The intent analyzer *)

Section IntentAnalyzer.
Context {U : UnicodeDB}.

(** The tables of an intent are among users, products and orders,
    without repetition, and a join is required exactly when there are
    at least two of them. *)
Theorem intent_tables_invariant (question : str) :
  let intent := _analyze_question_intent question in
  (forall t, In t (tables intent) ->
             In t [py "users"; py "products"; py "orders"])
  /\ NoDup (tables intent)
  /\ (join_required intent = true <-> (2 <= List.length (tables intent))%nat).
Proof.
  cbv zeta. unfold _analyze_question_intent. cbn [tables join_required].
  destruct (any_in [py "用户"; py "会员"; py "客户"] (lower question));
    destruct (any_in [py "商品"; py "产品"; py "价格"; py "库存"]
                (lower question));
    destruct (any_in [py "订单"; py "购买"; py "交易"] (lower question));
    cbn [app List.length Nat.ltb Nat.leb];
    (split; [intros t Ht; cbn [In] in *; tauto|]);
    (split;
     [ repeat constructor; cbn [In]; vm_compute; intuition discriminate
     | split; intros H; try discriminate H; try reflexivity; lia ]).
Qed.

Lemma search_class_digits_spec_cases (cls s : str) :
  match search_class_digits cls s with
  | Some digits =>
      digits <> [] /\ forallb is_digit digits = true
      /\ exists before c after,
          s = before ++ c :: digits ++ after
          /\ In c cls
          /\ match after with
             | [] => True
             | x :: _ => is_digit x = false
             end
  | None =>
      forall before c x after,
        s = before ++ c :: x :: after -> In c cls -> is_digit x = false
  end.
Proof.
  induction s as [|c rest IH]; cbn [search_class_digits].
  - intros before c x after E. destruct before; discriminate E.
  - destruct (existsb (N.eqb c) cls) eqn:Ecls.
    + destruct rest as [|d rest'].
      * cbn [andb]. cbn [search_class_digits].
        intros before c0 x after E.
        destruct before as [|b0 [|b1 before]]; discriminate E.
      * destruct (is_digit d) eqn:Ed; cbn [andb].
        -- split; [cbn [take_while]; rewrite Ed; discriminate|].
           split.
           { clear. induction (d :: rest') as [|y l IHl]; [reflexivity|].
             cbn [take_while]. destruct (is_digit y) eqn:Ey; [|reflexivity].
             cbn [forallb]. now rewrite Ey. }
           exists [], c, (drop_while is_digit (d :: rest')).
           split; [cbn [app]; now rewrite <- take_drop_while|].
           split.
           { apply existsb_exists in Ecls. destruct Ecls as (y & Hy & Ey).
             apply N.eqb_eq in Ey. now subst y. }
           apply drop_while_head.
        -- destruct (search_class_digits cls (d :: rest')) as [digits|].
           ++ destruct IH as (Hne & Hall & before & c0 & after & E & Hc & Ha).
              split; [exact Hne|]. split; [exact Hall|].
              exists (c :: before), c0, after. split; [|now split].
              cbn [app]. now rewrite E.
           ++ intros before c0 x after E Hc.
              destruct before as [|b0 before]; cbn [app] in E.
              ** injection E as _ <- _. exact Ed.
              ** injection E as _ E. now apply (IH before c0 x after).
    + cbn [andb].
      destruct (search_class_digits cls rest) as [digits|].
      * destruct IH as (Hne & Hall & before & c0 & after & E & Hc & Ha).
        split; [exact Hne|]. split; [exact Hall|].
        exists (c :: before), c0, after. split; [|now split].
        cbn [app]. now rewrite E.
      * intros before c0 x after E Hc.
        destruct before as [|b0 before]; cbn [app] in E.
        -- injection E as <- _. exfalso.
           assert (existsb (N.eqb c) cls = true); [|congruence].
           apply existsb_exists. exists c. split; [exact Hc|].
           apply N.eqb_refl.
        -- injection E as _ E. now apply (IH before c0 x after).
Qed.

(** The numeric capture: when it matches, the captured text is a
    non-empty run of digits that follows a character of the class and
    is not followed by a digit; when it does not match, no character of
    the class is followed by a digit. *)
Theorem search_class_digits_spec (cls s : str) :
  match search_class_digits cls s with
  | Some digits =>
      digits <> [] /\ forallb is_digit digits = true
      /\ exists before c after,
          s = before ++ c :: digits ++ after
          /\ In c cls
          /\ match after with
             | [] => True
             | x :: _ => is_digit x = false
             end
  | None =>
      forall before c x after,
        s = before ++ c :: x :: after -> In c cls -> is_digit x = false
  end.
Proof. exact (search_class_digits_spec_cases cls s). Qed.

End IntentAnalyzer.

(** ** What the fallback generator can return *)

Ltac pick_member :=
  repeat match goal with
         | |- ?x = ?x \/ _ => left; reflexivity
         | |- ?x = ?x => reflexivity
         | |- _ \/ _ => right
         end.

Section FallbackShape.
Context {U : UnicodeDB}.

Lemma search_class_digits_digits (cls s digits : str) :
  search_class_digits cls s = Some digits ->
  digits <> [] /\ forallb is_digit digits = true.
Proof.
  intros E. pose proof (search_class_digits_spec_cases cls s) as H.
  rewrite E in H. destruct H as (H1 & H2 & _). now split.
Qed.

Lemma generate_sql_by_intent_shape_cases (question : str) (intent : Intent) :
  In (_generate_sql_by_intent question intent) fixed_statements
  \/ exists head digits,
      In head price_heads
      /\ digits <> [] /\ forallb is_digit digits = true
      /\ _generate_sql_by_intent question intent = head ++ digits ++ py ";".
Proof.
  unfold _generate_sql_by_intent, intent_chain.
  repeat match goal with
         | |- context [if ?c then _ else _] => destruct c
         end;
    try (left; unfold fixed_statements; cbn [In]; pick_member; fail).
  - destruct (search_class_digits (py "高于大于") question) as [digits|] eqn:E;
      [|left; unfold fixed_statements; cbn [In]; pick_member].
    right. exists (py "SELECT * FROM products WHERE price > "), digits.
    destruct (search_class_digits_digits _ _ _ E) as [H1 H2].
    unfold price_heads. cbn [In].
    split; [pick_member|]. split; [exact H1|]. split; [exact H2|reflexivity].
  - destruct (search_class_digits (py "低于小于") question) as [digits|] eqn:E;
      [|left; unfold fixed_statements; cbn [In]; pick_member].
    right. exists (py "SELECT * FROM products WHERE price < "), digits.
    destruct (search_class_digits_digits _ _ _ E) as [H1 H2].
    unfold price_heads. cbn [In].
    split; [pick_member|]. split; [exact H1|]. split; [exact H2|reflexivity].
Qed.

(** The fallback generator returns one of thirteen fixed statements, or
    a price statement whose threshold is a non-empty run of digits: no
    other text of the question reaches the statement. *)
Theorem generate_sql_by_intent_shape (question : str) (intent : Intent) :
  In (_generate_sql_by_intent question intent) fixed_statements
  \/ exists head digits,
      In head price_heads
      /\ digits <> [] /\ forallb is_digit digits = true
      /\ _generate_sql_by_intent question intent = head ++ digits ++ py ";".
Proof. exact (generate_sql_by_intent_shape_cases question intent). Qed.

(** An occurrence of a text of letters cannot overlap a text without
    letters. *)
Lemma startswith_before (P : N -> bool) (kw a : str) (d : N) (r : str) :
  forallb P kw = true -> P d = false ->
  startswith kw (a ++ d :: r) = true -> startswith kw a = true.
Proof.
  intros Hkw Hd. revert a. induction kw as [|k kw IH]; intros a H;
    [reflexivity|].
  cbn [forallb] in Hkw. apply andb_prop in Hkw. destruct Hkw as [Hk Hkw].
  destruct a as [|x a]; cbn [app startswith] in *.
  - apply andb_prop in H. destruct H as [H _]. apply N.eqb_eq in H.
    subst k. congruence.
  - apply andb_prop in H. destruct H as [H1 H2]. rewrite H1.
    now apply IH.
Qed.

Lemma contains_skip (P : N -> bool) (kw d b : str) :
  kw <> [] -> forallb P kw = true -> forallb (fun c => negb (P c)) d = true ->
  contains kw (d ++ b) = true -> contains kw b = true.
Proof.
  intros Hne Hkw. induction d as [|x d IH]; intros Hd H; [exact H|].
  cbn [forallb] in Hd. apply andb_prop in Hd. destruct Hd as [Hx Hd].
  apply negb_true_iff in Hx. apply IH; [exact Hd|].
  cbn [app] in H. rewrite contains_eq in H. apply orb_prop in H.
  destruct H as [H | H]; [|exact H].
  apply (startswith_before P kw [] x (d ++ b) Hkw Hx) in H.
  destruct kw; [contradiction | discriminate H].
Qed.

Lemma contains_around (P : N -> bool) (kw a d b : str) :
  kw <> [] -> forallb P kw = true ->
  d <> [] -> forallb (fun c => negb (P c)) d = true ->
  contains kw (a ++ d ++ b) = true ->
  contains kw a = true \/ contains kw b = true.
Proof.
  intros Hne Hkw Hd Hall. induction a as [|x a IH]; intros H.
  - right. now apply (contains_skip P kw d b).
  - cbn [app] in H. rewrite contains_eq in H. apply orb_prop in H.
    destruct H as [H | H].
    + left. destruct d as [|d0 d]; [contradiction|].
      cbn [forallb] in Hall. apply andb_prop in Hall.
      destruct Hall as [Hd0 _]. apply negb_true_iff in Hd0.
      change (x :: a ++ (d0 :: d) ++ b) with ((x :: a) ++ d0 :: d ++ b) in H.
      apply (startswith_before P kw (x :: a) d0 (d ++ b) Hkw Hd0) in H.
      rewrite contains_eq, H. reflexivity.
    + destruct (IH H) as [Ha | Hb]; [left | now right].
      rewrite contains_eq, Ha. apply orb_true_r.
Qed.

Lemma digit_not_letter (c : N) :
  is_digit c = true -> is_ascii_upper (ascii_toupper c) = false.
Proof.
  intros H.
  assert (Hr : 48 <= c <= 57 \/ 128 <= c).
  { unfold is_digit, is_ascii in H.
    destruct (N.ltb_spec c 128) as [Hlt | Hge]; [left | now right].
    apply andb_prop in H. destruct H as [H1 H2].
    apply N.leb_le in H1. apply N.leb_le in H2. now split. }
  assert (El : is_ascii_lower c = false).
  { unfold is_ascii_lower. cmp_cases; try reflexivity. }
  unfold ascii_toupper. rewrite El.
  unfold is_ascii_upper. cmp_cases; try reflexivity.
Qed.

Lemma generate_sql_by_intent_safe_cases
    (question : str) (intent : Intent) (keyword : str) :
  In keyword dangerous_keywords ->
  ci_contains keyword (_generate_sql_by_intent question intent) = false.
Proof.
  intros Hkw.
  destruct (generate_sql_by_intent_shape_cases question intent)
    as [Hfixed | (head & digits & Hhead & Hne & Hdigits & ->)].
  - revert Hfixed. generalize (_generate_sql_by_intent question intent).
    intros sql Hsql. unfold fixed_statements in Hsql. cbn [In] in Hsql.
    unfold dangerous_keywords in Hkw. cbn [In] in Hkw.
    repeat destruct Hsql as [<- | Hsql]; try contradiction;
      repeat destruct Hkw as [<- | Hkw]; try contradiction;
      vm_compute; reflexivity.
  - destruct (ci_contains keyword (head ++ digits ++ py ";")) eqn:E;
      [|reflexivity].
    exfalso. unfold ci_contains in E. rewrite !map_app in E.
    destruct (dangerous_keywords_upper keyword Hkw) as [Hkne Hup].
    apply (contains_around is_ascii_upper) in E; trivial.
    + unfold price_heads in Hhead. cbn [In] in Hhead.
      unfold dangerous_keywords in Hkw. cbn [In] in Hkw.
      destruct E as [E | E]; revert E;
        repeat destruct Hhead as [<- | Hhead]; try contradiction;
        repeat destruct Hkw as [<- | Hkw]; try contradiction;
        vm_compute; discriminate.
    + destruct digits; [contradiction | discriminate].
    + rewrite forallb_forall in *. intros x Hx.
      apply in_map_iff in Hx. destruct Hx as (c & <- & Hc).
      apply negb_true_iff. apply digit_not_letter. now apply Hdigits.
Qed.

(** No statement of the fallback generator holds a dangerous keyword
    of [validate_sql] as a substring, the letters compared without
    regard to ASCII case. *)
Theorem generate_sql_by_intent_safe
    (question : str) (intent : Intent) (keyword : str) :
  In keyword dangerous_keywords ->
  ci_contains keyword (_generate_sql_by_intent question intent) = false.
Proof. exact (generate_sql_by_intent_safe_cases question intent keyword). Qed.

End FallbackShape.

(** ** What a request does and returns *)

Section RequestShape.
Context {U : UnicodeDB}.

Ltac run_convert :=
  cbv [convert _smart_fallback execute_query validate_sql bind tell ret
       raise fst snd app negb In dry_run_statement] in *.

Lemma convert_result_shape_cases (env : Env) (question : str) :
  let r := fst (convert env question) in
  cr_question r = question
  /\ if cr_success r
     then cr_error r = None
          /\ present (cr_sql r) = true /\ present (cr_result r) = true
          /\ present (cr_summary r) = true /\ present (cr_method r) = true
          /\ present (cr_intent_analysis r) = true
     else present (cr_error r) = true
          /\ cr_result r = None /\ cr_summary r = None /\ cr_method r = None.
Proof.
  cbv zeta.
  destruct (convert_body_paths env question)
    as [E | (candidate & Hmodel & Htext & Hextract)].
  - unfold convert. rewrite E. clear E.
    unfold _smart_fallback. cbv zeta.
    remember (_generate_sql_by_intent question
                (_analyze_question_intent question)) as sql0 eqn:Esql.
    clear Esql. run_convert.
    destruct (engine_execute env sql0) as [[columns results] | e | e];
      run_convert; repeat split.
  - unfold convert.
    rewrite (convert_body_model_path _ _ _ Hmodel Htext Hextract).
    cbv zeta.
    remember (_post_process_sql candidate question) as sql1 eqn:Esql.
    clear Esql. run_convert.
    destruct (find_dangerous sql1); [run_convert; repeat split|].
    destruct (engine_explain env _) as [[] | e | e];
      [|run_convert; repeat split..].
    destruct (engine_execute env sql1) as [[columns results] | e | e];
      run_convert; repeat split.
Qed.

(** The result of a request has one of two shapes: a success carries
    statement, result, summary, method and intent and no error; a
    failure carries an error and neither result, summary nor method.
    The question is always returned. *)
Theorem convert_result_shape (env : Env) (question : str) :
  let r := fst (convert env question) in
  cr_question r = question
  /\ if cr_success r
     then cr_error r = None
          /\ present (cr_sql r) = true /\ present (cr_result r) = true
          /\ present (cr_summary r) = true /\ present (cr_method r) = true
          /\ present (cr_intent_analysis r) = true
     else present (cr_error r) = true
          /\ cr_result r = None /\ cr_summary r = None /\ cr_method r = None.
Proof. exact (convert_result_shape_cases env question). Qed.

Lemma convert_trace_shape_cases (env : Env) (question : str) :
  let trace := snd (convert env question) in
  trace = [Executed (_generate_sql_by_intent question
                       (_analyze_question_intent question))]
  \/ exists sql,
      (trace = [ValidateCalled sql] /\ present (find_dangerous sql) = true)
      \/ (find_dangerous sql = None
          /\ (trace = [ValidateCalled sql; DryRun (dry_run_statement sql)]
              \/ (trace = [ValidateCalled sql; DryRun (dry_run_statement sql);
                           Executed sql]
                  /\ engine_explain env (dry_run_statement sql) = Done tt))).
Proof.
  cbv zeta.
  destruct (convert_body_paths env question)
    as [E | (candidate & Hmodel & Htext & Hextract)].
  - left. unfold convert. rewrite E. clear E.
    unfold _smart_fallback. cbv zeta.
    remember (_generate_sql_by_intent question
                (_analyze_question_intent question)) as sql0 eqn:Esql.
    clear Esql. run_convert.
    destruct (engine_execute env sql0) as [[columns results] | e | e];
      reflexivity.
  - right. unfold convert.
    rewrite (convert_body_model_path _ _ _ Hmodel Htext Hextract).
    cbv zeta.
    remember (_post_process_sql candidate question) as sql1 eqn:Esql.
    clear Esql. exists sql1. run_convert.
    destruct (find_dangerous sql1) eqn:Ef; [left; now split|].
    right. split; [reflexivity|].
    destruct (engine_explain env _) as [[] | e | e] eqn:Ex;
      [|left; reflexivity..].
    destruct (engine_execute env sql1) as [[columns results] | e | e];
      right; (split; reflexivity).
Qed.

Lemma find_dangerous_none (sql keyword : str) :
  find_dangerous sql = None -> In keyword dangerous_keywords ->
  ci_contains keyword sql = false.
Proof.
  intros Ef Hin. destruct (ci_contains keyword sql) eqn:Hci; [|reflexivity].
  destruct (dangerous_keywords_upper keyword Hin) as [Hne Hup].
  pose proof (ci_contains_upper_strip keyword sql Hne Hup Hci) as Hc.
  unfold find_dangerous in Ef.
  apply find_none with (x := keyword) in Ef; [|exact Hin].
  cbv beta in Ef. congruence.
Qed.

(** Whatever the model answers and whatever the question, a statement
    that a request executes holds none of the dangerous keywords, in
    whatever case. *)
Theorem convert_executes_no_dangerous
    (env : Env) (question sql keyword : str) :
  In (Executed sql) (snd (convert env question)) ->
  In keyword dangerous_keywords ->
  ci_contains keyword sql = false.
Proof.
  intros Hexec Hkw.
  destruct (convert_trace_shape_cases env question)
    as [E | (s & [[E _] | [Ef [E | [E _]]]])];
    rewrite E in Hexec; cbn [In] in Hexec.
  - destruct Hexec as [H | []]. injection H as <-.
    now apply generate_sql_by_intent_safe_cases.
  - destruct Hexec as [H | []]. discriminate H.
  - destruct Hexec as [H | [H | []]]; discriminate H.
  - destruct Hexec as [H | [H | [H | []]]]; try discriminate H.
    injection H as <-. now apply find_dangerous_none.
Qed.

End RequestShape.

(** ** What the extractor returns *)

Section ExtractorResult.
Context {U : UnicodeDB}.

Lemma contains_app_r (kw h t : str) :
  contains kw h = true -> contains kw (h ++ t) = true.
Proof.
  intros H. apply contains_spec in H. destruct H as (a & b & ->).
  apply contains_spec. exists a, (b ++ t). now rewrite <- !app_assoc.
Qed.

Lemma contains_snoc_semicolon (kw h : str) :
  kw <> [] -> forallb (fun c => negb (c =? 59)) kw = true ->
  contains kw (h ++ [59]) = contains kw h.
Proof.
  intros Hne Hkw. destruct (contains kw h) eqn:E.
  - now apply contains_app_r.
  - destruct (contains kw (h ++ [59])) eqn:E'; [|reflexivity].
    change (h ++ [59]) with (h ++ [59] ++ []) in E'.
    apply (contains_around (fun c => negb (c =? 59))) in E'; trivial;
      try discriminate.
    destruct E' as [E' | E']; [congruence|].
    destruct kw; [contradiction | discriminate E'].
Qed.

(** Closing a candidate with the separator does not change its
    structural validity. *)
Lemma validate_candidate_semicolon (sql : str) :
  _validate_sql_candidate (sql ++ py ";") = _validate_sql_candidate sql.
Proof.
  unfold _validate_sql_candidate, valid_tables. cbn [map existsb].
  rewrite upper_app.
  assert (upper (py ";") = [59]) as -> by (vm_compute; reflexivity).
  rewrite !contains_snoc_semicolon
    by (vm_compute; first [discriminate | reflexivity]).
  reflexivity.
Qed.

Lemma try_matches_some (matches : list str) (sql : str) :
  try_matches matches = Some sql ->
  exists m, In m matches
            /\ _validate_sql_candidate (strip m) = true
            /\ sql = ensure_semicolon (strip m).
Proof.
  induction matches as [|m rest IH]; cbn [try_matches]; [discriminate|].
  destruct (_validate_sql_candidate (strip m)) eqn:E.
  - intros H. injection H as <-. exists m. cbn [In]. auto.
  - intros H. destruct (IH H) as (m' & Hin & Hv & ->).
    exists m'. cbn [In]. auto.
Qed.

Lemma try_patterns_some (patterns : list (str -> option str))
      (text sql : str) :
  try_patterns patterns text = Some sql ->
  exists pattern m,
    In pattern patterns /\ In m (findall pattern text)
    /\ _validate_sql_candidate (strip m) = true
    /\ sql = ensure_semicolon (strip m).
Proof.
  induction patterns as [|p ps IH]; cbn [try_patterns]; [discriminate|].
  destruct (try_matches (findall p text)) as [found|] eqn:E.
  - intros H. injection H as <-.
    destruct (try_matches_some _ _ E) as (m & Hin & Hv & ->).
    exists p, m. cbn [In]. auto.
  - intros H. destruct (IH H) as (p' & m & Hp & Hin & Hv & ->).
    exists p', m. cbn [In]. auto.
Qed.

(** A statement that the extractor returns is a match of one of the
    three patterns in the text without its code fences, stripped; it
    passes the structural validation and ends with the separator. *)
Theorem extract_result_valid (text sql : str) :
  _extract_sql_advanced text = Some sql ->
  (exists pattern m,
      In pattern sql_patterns
      /\ In m (findall pattern (clean_fences text))
      /\ sql = ensure_semicolon (strip m))
  /\ _validate_sql_candidate sql = true
  /\ endswith (py ";") sql = true.
Proof.
  unfold _extract_sql_advanced. intros H.
  destruct (try_patterns_some _ _ _ H) as (p & m & Hp & Hin & Hv & ->).
  split; [now exists p, m|].
  unfold ensure_semicolon.
  destruct (endswith (py ";") (strip m)) eqn:E; cbn [negb].
  - now split.
  - split; [now rewrite validate_candidate_semicolon|].
    apply endswith_app.
Qed.

Lemma findall_with_none (m : str -> option str) (s : str) :
  (forall a b, s = a ++ b -> m b = None) ->
  forall skip, findall_with m skip s = [].
Proof.
  induction s as [|c s IH]; intros H skip; [reflexivity|].
  cbn [findall_with]. destruct skip as [|k].
  - rewrite (H [] (c :: s) eq_refl). apply IH.
    intros a b E. apply (H (c :: a) b). now rewrite E.
  - apply IH. intros a b E. apply (H (c :: a) b). now rewrite E.
Qed.

Lemma suffixes_split (s a b : str) : s = a ++ b -> In b (suffixes s).
Proof.
  revert s. induction a as [|c a IH]; intros s ->.
  - destruct b; cbn [app suffixes In]; auto.
  - cbn [app suffixes In]. right. now apply IH.
Qed.

(** A model answer in which, once the code fences are removed, SELECT
    followed by whitespace occurs nowhere yields no statement. *)
Theorem extract_without_select (text : str) :
  has_select_head (clean_fences text) = false ->
  _extract_sql_advanced text = None.
Proof.
  intros H.
  assert (H' : forall a b, clean_fences text = a ++ b ->
                           select_head b = false).
  { intros a b E. apply suffixes_split in E. unfold has_select_head in H.
    destruct (select_head b) eqn:Eb; [|reflexivity].
    assert (existsb select_head (suffixes (clean_fences text)) = true);
      [|congruence].
    apply existsb_exists. now exists b. }
  unfold _extract_sql_advanced, sql_patterns.
  cbn [try_patterns]. unfold findall.
  rewrite !findall_with_none; [reflexivity|..];
    intros a b E;
    unfold match_select_rest, match_select_lookahead, match_select_semicolon;
    now rewrite (H' a b E).
Qed.

End ExtractorResult.

Lemma extract_result_valid_witness :
  _validate_sql_candidate (py "SELECT * FROM users;") = true
  /\ endswith (py ";") (py "SELECT * FROM users;") = true.
Proof.
  apply (extract_result_valid two_statements).
  vm_compute. reflexivity.
Defined.

Lemma extract_without_select_witness :
  _extract_sql_advanced (py "```sql
SELECTED * FROM users
```") = None.
Proof. apply extract_without_select. vm_compute. reflexivity. Defined.

(** ** What the post-processor returns *)

Section PostProcessorResult.
Context {U : UnicodeDB}.

(** The post-processed statement is in normal form: its whitespace is
    single spaces between other characters, none at either end, and it
    ends with the separator. *)
Theorem post_process_normal_form (sql question : str) :
  let result := _post_process_sql sql question in
  collapse_spaces result = result
  /\ strip result = result
  /\ endswith (py ";") result = true.
Proof.
  cbv zeta. rewrite post_process_is_normalize.
  pose proof (tidy_strip _ (collapse_spaces_tidy sql)) as Htidy.
  pose proof (strip_idem (collapse_spaces sql)) as Hstrip.
  pose proof (lstrip_strip (collapse_spaces sql)) as Hl.
  unfold normalize_sql.
  set (t := strip (collapse_spaces sql)) in *.
  destruct (endswith (py ";") t) eqn:E.
  - assert (ensure_semicolon t = t) as ->
        by (unfold ensure_semicolon; now rewrite E).
    rewrite (tidy_collapse_spaces _ Htidy). auto.
  - assert (ensure_semicolon t = t ++ [59]) as ->
        by (unfold ensure_semicolon; now rewrite E).
    rewrite collapse_spaces_snoc by reflexivity.
    rewrite (tidy_collapse_spaces _ Htidy).
    rewrite strip_snoc by (reflexivity || exact Hl).
    change [59] with (py ";"). now rewrite endswith_app.
Qed.







End PostProcessorResult.

(** ** Statements the validator cannot accept *)

Section ValidatorRejections.
Context {U : UnicodeDB}.

Lemma ci_contains_prefix (k1 k2 s : str) :
  ci_contains (k1 ++ k2) s = true -> ci_contains k1 s = true.
Proof.
  unfold ci_contains. intros H. apply contains_spec in H.
  destruct H as (a & b & E). apply contains_spec.
  exists a, (k2 ++ b). now rewrite E, <- app_assoc.
Qed.

(** A statement that names the schema's [created_at] column, in
    whatever case, is rejected as a forbidden operation before any dry
    run: the scan finds CREATE inside the column name. *)
Theorem validate_sql_rejects_created_at (env : Env) (sql : str) :
  ci_contains (py "CREATED_AT") sql = true ->
  exists found,
    In found dangerous_keywords
    /\ validate_sql env sql
       = (Ret (false, Some (forbidden_message found)), [ValidateCalled sql]).
Proof.
  intros H.
  assert (Hc : ci_contains (py "CREATE") sql = true).
  { apply (ci_contains_prefix (py "CREATE") (py "D_AT")).
    exact H. }
  assert (Hin : In (py "CREATE") dangerous_keywords).
  { unfold dangerous_keywords. cbn [In]. pick_member. }
  destruct (find_dangerous sql) as [found|] eqn:Ef.
  - exists found. split.
    + unfold find_dangerous in Ef. now apply find_some in Ef.
    + unfold validate_sql. now rewrite Ef.
  - pose proof (find_dangerous_none _ _ Ef Hin). congruence.
Qed.

End ValidatorRejections.

Lemma validate_sql_rejects_created_at_witness :
  exists found,
    In found dangerous_keywords
    /\ validate_sql env_created_at
         (py "SELECT name FROM products ORDER BY created_at;")
       = (Ret (false, Some (forbidden_message found)),
          [ValidateCalled
             (py "SELECT name FROM products ORDER BY created_at;")]).
Proof.
  apply validate_sql_rejects_created_at. vm_compute. reflexivity.
Defined.

(** ** The conditions of an intent *)

Section IntentConditions.
Context {U : UnicodeDB}.

(** A condition of an intent is one of the four equalities on a name
    or a category, or a price condition with the operator [>] whose
    value is a non-empty run of digits: the analyzer records no
    condition for a price below a threshold. *)
Theorem intent_conditions_invariant (question : str) (c : Condition) :
  In c (conditions (_analyze_question_intent question)) ->
  (operator c = py "="
   /\ In (field c, value c)
         [(py "users.username", py "'张三'");
          (py "users.username", py "'李四'");
          (py "products.category", py "'手机'");
          (py "products.category", py "'电脑'")])
  \/ (operator c = py ">" /\ field c = py "products.price"
      /\ value c <> [] /\ forallb is_digit (value c) = true).
Proof.
  unfold _analyze_question_intent. cbn [conditions].
  rewrite !in_app_iff.
  intros [H | [H | [H | [H | H]]]].
  - destruct (contains (py "张三") question); [|contradiction].
    destruct H as [<- | []]. left. cbn [operator field value In].
    split; [reflexivity | pick_member].
  - destruct (contains (py "李四") question); [|contradiction].
    destruct H as [<- | []]. left. cbn [operator field value In].
    split; [reflexivity | pick_member].
  - destruct (contains (py "手机") (lower question)); [|contradiction].
    destruct H as [<- | []]. left. cbn [operator field value In].
    split; [reflexivity | pick_member].
  - destruct (contains (py "电脑") (lower question)); [|contradiction].
    destruct H as [<- | []]. left. cbn [operator field value In].
    split; [reflexivity | pick_member].
  - destruct (contains (py "高于") (lower question)
              || contains (py "大于") (lower question))%bool;
      [|contradiction].
    destruct (search_class_digits (py "高于大于") question) as [digits|] eqn:E;
      [|contradiction].
    destruct H as [<- | []]. right. cbn [operator field value].
    destruct (search_class_digits_digits _ _ _ E) as [H1 H2]. auto.
Qed.

End IntentConditions.

Lemma intent_conditions_invariant_witness :
  let c := {| field := py "products.price"; operator := py ">";
              value := py "5000" |} in
  (operator c = py "="
   /\ In (field c, value c)
         [(py "users.username", py "'张三'");
          (py "users.username", py "'李四'");
          (py "products.category", py "'手机'");
          (py "products.category", py "'电脑'")])
  \/ (operator c = py ">" /\ field c = py "products.price"
      /\ value c <> [] /\ forallb is_digit (value c) = true).
Proof.
  apply (intent_conditions_invariant (py "查找价格高于5000的商品")).
  vm_compute. tauto.
Defined.

(** ** The summarizer *)

Section Summarizer.
Context {U : UnicodeDB}.

(** For a question with a statistics keyword and a result with rows,
    the summary is the statistics sentence over the rows of two
    columns, when the first row has two columns, and the sentence with
    the number of rows otherwise: the average, maximum and minimum
    sentences are never given for such a question. *)
Theorem summary_statistics_first (question sql : str) (result : QueryResult) :
  (contains (py "统计") (lower question)
   || contains (py "总数") (lower question)
   || contains (py "数量") (lower question))%bool = true ->
  qr_success result = true ->
  qr_row_count result <> 0%nat ->
  _generate_intelligent_summary question sql result
  = match qr_data result with
    | first_row :: _ =>
        if Nat.eqb (List.length first_row) 2
        then py "统计结果: " ++ join (py ", ") (summary_parts (qr_data result))
        else count_sentence (qr_row_count result)
    | [] => count_sentence (qr_row_count result)
    end.
Proof.
  intros Hkey Hok Hrows.
  unfold _generate_intelligent_summary, summary_chain, count_sentence.
  rewrite Hok, Hkey. cbn [negb].
  destruct (Nat.eqb_spec (qr_row_count result) 0) as [E | _];
    [contradiction|].
  destruct (qr_data result) as [|first_row rest]; [reflexivity|].
  destruct (Nat.eqb (List.length first_row) 2) eqn:El; [|reflexivity].
  destruct first_row as [|[k0 v0] [|[k1 v1] [|x r]]]; try discriminate El.
  reflexivity.
Qed.

End Summarizer.

Lemma summary_statistics_first_witness :
  _generate_intelligent_summary (py "统计平均价格") (py "SELECT AVG(price) as avg_price FROM products;")
    {| qr_success := true; qr_error := None;
       qr_columns := [py "avg_price"];
       qr_data := [[(py "avg_price", VInt 3000)]];
       qr_row_count := 1 |}
  = py "查询完成，找到1条匹配记录。".
Proof.
  rewrite summary_statistics_first; [reflexivity | ..];
    try (vm_compute; reflexivity).
  discriminate.
Defined.

(** ** Serialization *)

Lemma pyvalue_induction (P : pyvalue -> Prop) :
  (forall s, P (PStr s)) -> (forall z, P (PInt z)) ->
  (forall t, P (PFloat t)) -> (forall b, P (PBool b)) -> P PNone ->
  (forall items, Forall (fun kv => P (snd kv)) items -> P (PDict items)) ->
  (forall items, Forall P items -> P (PList items)) ->
  (forall items, Forall P items -> P (PTuple items)) ->
  (forall items, Forall P items -> P (PSet items)) ->
  (forall r, P (POther r)) ->
  forall data, P data.
Proof.
  intros Hs Hi Hf Hb Hn Hd Hl Ht Hset Ho. fix IH 1. intros data.
  destruct data as [s | z | t | b | | items | items | items | items | r];
    [apply Hs | apply Hi | apply Hf | apply Hb | apply Hn | | | | | apply Ho].
  - apply Hd. revert items. fix go 1. intros [|[k v] rest];
      constructor; [apply IH | apply go].
  - apply Hl. revert items. fix go 1. intros [|v rest];
      constructor; [apply IH | apply go].
  - apply Ht. revert items. fix go 1. intros [|v rest];
      constructor; [apply IH | apply go].
  - apply Hset. revert items. fix go 1. intros [|v rest];
      constructor; [apply IH | apply go].
Qed.

Lemma forallb_map_plain (items : list pyvalue) :
  Forall (fun v => json_plain (_make_json_serializable v) = true) items ->
  forallb json_plain (map _make_json_serializable items) = true.
Proof.
  induction 1 as [|v rest Hv _ IH]; [reflexivity|].
  cbn [map forallb]. now rewrite Hv, IH.
Qed.

Lemma make_json_serializable_plain_cases (data : pyvalue) :
  json_plain (_make_json_serializable data) = true.
Proof.
  induction data using pyvalue_induction; try reflexivity;
    cbn [_make_json_serializable json_plain];
    try now apply forallb_map_plain.
  induction H as [|[k v] rest Hv _ IH]; [reflexivity|].
  cbn [map forallb snd] in *. now rewrite Hv, IH.
Qed.

(** Whatever it is given, [_make_json_serializable] returns a value
    made of text, numbers, booleans, [None], dictionaries and lists
    only: sets and tuples have become lists, other objects text. *)
Theorem make_json_serializable_plain (data : pyvalue) :
  json_plain (_make_json_serializable data) = true.
Proof. exact (make_json_serializable_plain_cases data). Qed.

Lemma map_fixed (items : list pyvalue) :
  Forall (fun v => json_plain v = true -> _make_json_serializable v = v)
         items ->
  forallb json_plain items = true ->
  map _make_json_serializable items = items.
Proof.
  induction 1 as [|v rest Hv _ IH]; [reflexivity|].
  cbn [map forallb]. intros H. apply andb_prop in H. destruct H as [H1 H2].
  now rewrite (Hv H1), (IH H2).
Qed.

Lemma make_json_serializable_fixed (data : pyvalue) :
  json_plain data = true -> _make_json_serializable data = data.
Proof.
  induction data using pyvalue_induction; try reflexivity;
    cbn [_make_json_serializable json_plain]; try discriminate;
    intros Hp.
  - f_equal. induction H as [|[k v] rest Hv _ IH]; [reflexivity|].
    cbn [map forallb snd] in *. apply andb_prop in Hp.
    destruct Hp as [H1 H2]. now rewrite (Hv H1), (IH H2).
  - f_equal. now apply map_fixed.
Qed.

(** Serializing twice is serializing once. *)
Theorem make_json_serializable_idempotent (data : pyvalue) :
  _make_json_serializable (_make_json_serializable data)
  = _make_json_serializable data.
Proof.
  apply make_json_serializable_fixed, make_json_serializable_plain_cases.
Qed.

Section IntentSerialization.
Context {U : UnicodeDB}.

(** The intent dictionary of every question is returned by
    [_make_json_serializable] as it is: the analyzer leaves no set in
    it. *)
Theorem intent_serialization_unchanged (question : str) :
  _make_json_serializable (intent_value (_analyze_question_intent question))
  = intent_value (_analyze_question_intent question).
Proof.
  apply make_json_serializable_fixed.
  generalize (_analyze_question_intent question) as intent. intros intent.
  unfold intent_value. cbn [json_plain forallb snd].
  rewrite !andb_true_r. apply andb_true_intro. split.
  - induction (tables intent) as [|t rest IH]; [reflexivity|exact IH].
  - induction (conditions intent) as [|c rest IH]; [reflexivity|exact IH].
Qed.

End IntentSerialization.

(** ** The model call *)

Lemma last_piece_from_none (sep s : str) :
  contains sep s = false ->
  forall piece, last_piece_from sep 0 s piece = piece.
Proof.
  induction s as [|c s IH]; intros H piece; [reflexivity|].
  rewrite contains_eq in H. apply orb_false_elim in H.
  destruct H as [H1 H2]. cbn [last_piece_from]. rewrite H1. now apply IH.
Qed.

Lemma last_piece_from_skip (sep x rest piece : str) :
  last_piece_from sep (List.length x) (x ++ rest) piece
  = last_piece_from sep 0 rest piece.
Proof.
  induction x as [|c x IH]; [destruct rest; reflexivity|].
  cbn [List.length app last_piece_from]. exact IH.
Qed.

(** When the decoded text is the prompt followed by an answer that
    does not repeat the prompt, [_generate_sql] returns the answer,
    stripped: the echo of the prompt is removed. *)
Theorem generate_sql_removes_prompt
    (decode : str -> outcome str) (prompt answer : str) :
  prompt <> [] ->
  decode prompt = Ret (prompt ++ answer) ->
  contains prompt answer = false ->
  _generate_sql decode prompt = strip answer.
Proof.
  intros Hne Hdecode Hanswer. unfold _generate_sql. rewrite Hdecode.
  rewrite contains_prefix.
  destruct prompt as [|c prompt]; [contradiction|].
  f_equal. unfold last_piece. cbn [app last_piece_from].
  change (c :: prompt ++ answer) with ((c :: prompt) ++ answer).
  rewrite startswith_app, skipn_app, skipn_all, Nat.sub_diag.
  cbn [List.length app skipn].
  replace (S (List.length prompt) - 1)%nat with (List.length prompt) by lia.
  rewrite last_piece_from_skip. now apply last_piece_from_none.
Qed.

Lemma generate_sql_removes_prompt_witness :
  _generate_sql (fun prompt => Ret (prompt ++ py " SELECT * FROM users; "))
    (py "SQL：")
  = py "SELECT * FROM users;".
Proof.
  rewrite (generate_sql_removes_prompt _ (py "SQL：")
             (py " SELECT * FROM users; "));
    try (vm_compute; reflexivity).
  vm_compute. discriminate.
Defined.

(** ** Where the statement of a result comes from *)

Section Provenance.
Context {U : UnicodeDB}.

Ltac run_convert :=
  cbv [convert _smart_fallback execute_query validate_sql bind tell ret
       raise fst snd app negb In dry_run_statement] in *.

Lemma fallback_provenance (env : Env) (question : str) :
  convert_body env question = _smart_fallback env question ->
  match cr_method (fst (convert env question)) with
  | Some llm => False
  | Some intent_based_fallback =>
      cr_sql (fst (convert env question))
      = Some (_generate_sql_by_intent question
                (_analyze_question_intent question))
  | None => cr_success (fst (convert env question)) = false
  end.
Proof.
  intros E. unfold convert. rewrite E. clear E.
  unfold _smart_fallback. cbv zeta.
  remember (_generate_sql_by_intent question
              (_analyze_question_intent question)) as sql0 eqn:Esql.
  clear Esql. run_convert.
  destruct (engine_execute env sql0) as [[columns results] | e | e];
    reflexivity.
Qed.

(** The method of a result tells where its statement comes from.  With
    the method llm, the model was loaded and the statement is the
    post-processed candidate extracted from its answer; the security
    scan found no keyword in it, the dry run accepted it, and it was
    executed.  With the fallback method, the statement is that of the
    rule-based generator, and the model was not loaded, or answered
    nothing, or no candidate was extracted.  Without a method the
    result is a failure. *)
Theorem convert_method_provenance (env : Env) (question : str) :
  let r := fst (convert env question) in
  let text := generate_sql env (build_prompt env question) in
  match cr_method r with
  | Some llm =>
      model_loaded env = true
      /\ exists candidate,
          _extract_sql_advanced text = Some candidate
          /\ cr_sql r = Some (_post_process_sql candidate question)
          /\ find_dangerous (_post_process_sql candidate question) = None
          /\ engine_explain env
               (dry_run_statement (_post_process_sql candidate question))
             = Done tt
          /\ In (Executed (_post_process_sql candidate question))
                (snd (convert env question))
  | Some intent_based_fallback =>
      cr_sql r = Some (_generate_sql_by_intent question
                         (_analyze_question_intent question))
      /\ (model_loaded env = false \/ text = []
          \/ _extract_sql_advanced text = None)
  | None => cr_success r = false
  end.
Proof.
  cbv zeta.
  destruct (model_loaded env) eqn:Hmodel.
  2:{ assert (E : convert_body env question = _smart_fallback env question)
        by (unfold convert_body; now rewrite Hmodel).
      pose proof (fallback_provenance env question E) as H.
      destruct (cr_method (fst (convert env question))) as [[|]|];
        [contradiction | auto | exact H]. }
  destruct (generate_sql env (build_prompt env question)) as [|c text] eqn:Ht.
  { assert (E : convert_body env question = _smart_fallback env question)
      by (unfold convert_body; now rewrite Hmodel, Ht).
    pose proof (fallback_provenance env question E) as H.
    destruct (cr_method (fst (convert env question))) as [[|]|];
      [contradiction | auto | exact H]. }
  destruct (_extract_sql_advanced (c :: text)) as [candidate|] eqn:Hx.
  2:{ assert (E : convert_body env question = _smart_fallback env question)
        by (unfold convert_body; now rewrite Hmodel, Ht, Hx).
      pose proof (fallback_provenance env question E) as H.
      destruct (cr_method (fst (convert env question))) as [[|]|];
        [contradiction | auto | exact H]. }
  assert (Hne : generate_sql env (build_prompt env question) <> [])
    by (rewrite Ht; discriminate).
  rewrite <- Ht in Hx.
  unfold convert.
  rewrite (convert_body_model_path _ _ _ Hmodel Hne Hx).
  cbv zeta.
  remember (_post_process_sql candidate question) as sql1 eqn:Esql.
  run_convert.
  destruct (find_dangerous sql1) eqn:Ef; [reflexivity|].
  destruct (engine_explain env _) as [[] | e | e] eqn:Ex;
    [|reflexivity..].
  destruct (engine_execute env sql1) as [[columns results] | e | e];
    run_convert; try reflexivity;
    (split; [reflexivity|]; exists candidate; rewrite <- Esql;
     split; [first [exact Hx | now rewrite Ht in Hx]|]; repeat split; auto).
Qed.

End Provenance.

Lemma generate_sql_by_intent_safe_witness :
  ci_contains (py "DROP")
    (_generate_sql_by_intent (py "drop table users 价格高于5")
       (_analyze_question_intent (py "drop table users 价格高于5")))
  = false.
Proof.
  apply generate_sql_by_intent_safe. vm_compute. tauto.
Defined.

Lemma convert_executes_no_dangerous_witness :
  ci_contains (py "DROP") (py "SELECT * FROM users;") = false.
Proof.
  apply (convert_executes_no_dangerous env_no_tables (py "查询所有用户")).
  - vm_compute. tauto.
  - vm_compute. tauto.
Defined.

(** ** The initialization of the database *)





Section InitDatabaseProperties.
Variable db : Type.
Variable run : db -> str -> engine_reply (list (list sql_value)) * db.
Variable commit : db -> engine_reply unit * db.
Variable out : console.

Lemma run_schema_completes (statements : list str) (d : db) :
  forallb completes (fst (run_list db run statements d)) = true ->
  run_schema db run statements d
  = (Ret tt, snd (run_list db run statements d), map Statement statements).
Proof.
  revert d. induction statements as [|s rest IH]; intros d H; [reflexivity|].
  cbn [run_list run_schema] in *.
  destruct (run d s) as [reply d1].
  specialize (IH d1).
  destruct (run_list db run rest d1) as [replies d2].
  cbn [fst snd forallb] in *. apply andb_prop in H. destruct H as [Hs Hrest].
  destruct reply as [rows | e | e]; try discriminate Hs.
  now rewrite (IH Hrest).
Qed.


Lemma run_samples_goes_on (statements : list str) (d : db) :
  forallb (goes_on out) (fst (run_list db run statements d)) = true ->
  run_samples db run out statements d
  = (Ret tt, snd (run_list db run statements d), map Statement statements).
Proof.
  revert d. induction statements as [|s rest IH]; intros d H; [reflexivity|].
  cbn [run_list run_samples] in *.
  destruct (run d s) as [reply d1].
  specialize (IH d1).
  destruct (run_list db run rest d1) as [replies d2].
  cbn [fst snd forallb] in *. apply andb_prop in H. destruct H as [Hs Hrest].
  destruct reply as [rows | e | e]; try discriminate Hs.
  - now rewrite (IH Hrest).
  - cbn [goes_on] in Hs. destruct (out (InsertErrorLine e));
      [discriminate Hs | now rewrite (IH Hrest)].
Qed.

Lemma schema_loop_completes (schema_file : option str) (d : db) :
  forallb completes
    (fst (run_list db run (file_statements schema_file) d)) = true ->
  match schema_file with
  | Some schema_sql => run_schema db run (script_statements schema_sql) d
  | None => (Ret tt, d, [])
  end = (Ret tt, snd (run_list db run (file_statements schema_file) d),
         map Statement (file_statements schema_file)).
Proof.
  destruct schema_file as [schema|]; [apply run_schema_completes|reflexivity].
Qed.


(** When the schema statements complete and the count query then
    answers zero, every statement of the sample data is submitted, in
    order, whether or not the engine refuses some of them with an
    [sqlite3.Error] whose message is then printed, and the connection
    is committed.  The replies are those the engine gives along the
    run. *)
Theorem init_database_samples_tolerant
    (schema_file : option str) (script : str) (d : db) :
  let d1 := snd (run_list db run (file_statements schema_file) d) in
  let d2 := snd (run d1 count_query) in
  let d3 := snd (run_list db run (script_statements script) d2) in
  forallb completes
    (fst (run_list db run (file_statements schema_file) d)) = true ->
  (exists rows,
      fst (run d1 count_query) = Done rows /\ count_is_zero rows = Ret true) ->
  forallb (goes_on out)
    (fst (run_list db run (script_statements script) d2)) = true ->
  fst (commit d3) = Done tt ->
  init_database db run commit out schema_file (Some script) d
  = (Ret tt, snd (commit d3),
     map Statement (file_statements schema_file)
     ++ Statement count_query
     :: map Statement (script_statements script) ++ [Commit]).
Proof.
  cbv zeta. intros Hschema (rows & Hrun & Hzero) Hsample Hcommit.
  unfold init_database, init_body.
  rewrite (schema_loop_completes schema_file d Hschema). cbv zeta.
  destruct (run (snd (run_list db run (file_statements schema_file) d))
              count_query) as [reply d2].
  cbn [fst snd] in *. subst reply. rewrite Hzero.
  rewrite (run_samples_goes_on _ d2 Hsample).
  destruct (commit (snd (run_list db run (script_statements script) d2)))
    as [creply d4].
  cbn [fst snd] in *. subst creply.
  now rewrite <- app_assoc.
Qed.

(** When the schema statements complete and the count query then
    answers a number that is not zero, the sample data is left alone:
    after the schema and the count the connection is committed. *)
Theorem init_database_keeps_data
    (schema_file sample_file : option str) (d : db) :
  let d1 := snd (run_list db run (file_statements schema_file) d) in
  let d2 := snd (run d1 count_query) in
  forallb completes
    (fst (run_list db run (file_statements schema_file) d)) = true ->
  (exists rows,
      fst (run d1 count_query) = Done rows /\ count_is_zero rows = Ret false) ->
  fst (commit d2) = Done tt ->
  init_database db run commit out schema_file sample_file d
  = (Ret tt, snd (commit d2),
     map Statement (file_statements schema_file)
     ++ [Statement count_query; Commit]).
Proof.
  cbv zeta. intros Hschema (rows & Hrun & Hzero) Hcommit.
  unfold init_database, init_body.
  rewrite (schema_loop_completes schema_file d Hschema). cbv zeta.
  destruct (run (snd (run_list db run (file_statements schema_file) d))
              count_query) as [reply d2].
  cbn [fst snd] in *. subst reply. rewrite Hzero.
  destruct (commit d2) as [creply d4].
  cbn [fst snd] in *. subst creply.
  now rewrite <- app_assoc.
Qed.

End InitDatabaseProperties.


Lemma init_database_samples_tolerant_witness :
  fst (init_database store store_run store_commit writes_all None
         (Some (py "INSERT INTO users VALUES (1); BAD; INSERT INTO users VALUES (2);"))
         empty_store)
  = (Ret tt, {| store_tables := []; store_users := 2 |})
  /\ snd (init_database store store_run store_commit writes_all None
            (Some (py "INSERT INTO users VALUES (1); BAD; INSERT INTO users VALUES (2);"))
            empty_store)
     = [Statement count_query;
        Statement (py "INSERT INTO users VALUES (1)");
        Statement (py "BAD");
        Statement (py "INSERT INTO users VALUES (2)");
        Commit].
Proof.
  rewrite (init_database_samples_tolerant store store_run store_commit writes_all None
             (py "INSERT INTO users VALUES (1); BAD; INSERT INTO users VALUES (2);")
             empty_store);
    try (vm_compute; reflexivity).
  - split; vm_compute; reflexivity.
  - exists [[VInt 0]]. split; vm_compute; reflexivity.
Defined.

Lemma init_database_keeps_data_witness :
  fst (init_database store store_run store_commit writes_all
         (Some (py "CREATE TABLE users (id);"))
         (Some (py "INSERT INTO users VALUES (1);"))
         {| store_tables := []; store_users := 3 |})
  = (Ret tt, {| store_tables := [py "CREATE TABLE users (id)"];
                store_users := 3 |})
  /\ snd (init_database store store_run store_commit writes_all
            (Some (py "CREATE TABLE users (id);"))
            (Some (py "INSERT INTO users VALUES (1);"))
            {| store_tables := []; store_users := 3 |})
     = [Statement (py "CREATE TABLE users (id)"); Statement count_query;
        Commit].
Proof.
  rewrite (init_database_keeps_data store store_run store_commit writes_all
             (Some (py "CREATE TABLE users (id);"))
             (Some (py "INSERT INTO users VALUES (1);"))
             {| store_tables := []; store_users := 3 |});
    try (vm_compute; reflexivity).
  - split; vm_compute; reflexivity.
  - exists [[VInt 3]]. split; vm_compute; reflexivity.
Defined.

(** ** Where an extracted statement lies in the text *)

Lemma starts_ci_uncased (lit s : str) :
  forallb (fun p => negb (is_ascii_lower p || is_ascii_upper p)) lit = true ->
  starts_ci lit s = startswith lit s.
Proof.
  revert s. induction lit as [|p lit IH]; intros s H; [reflexivity|].
  cbn [forallb] in H. apply andb_prop in H. destruct H as [Hp Hlit].
  apply negb_true_iff in Hp.
  destruct s as [|c s]; [reflexivity|]. cbn [starts_ci startswith].
  unfold sre_ci_eq. rewrite Hp, (IH s Hlit). now rewrite N.eqb_sym.
Qed.

Lemma starts_ci_app (l1 l2 s : str) :
  starts_ci (l1 ++ l2) s = true -> starts_ci l1 s = true.
Proof.
  revert s. induction l1 as [|p l1 IH]; intros s H; [reflexivity|].
  destruct s as [|c s]; [discriminate H|]. cbn [app starts_ci] in *.
  apply andb_prop in H. destruct H as [H1 H2]. rewrite H1. now apply IH.
Qed.

Lemma starts_ci_startswith (s : str) :
  starts_ci (py "```") s = startswith (py "```") s.
Proof. apply starts_ci_uncased. vm_compute. reflexivity. Qed.

Lemma starts_ci_sql_fence (s : str) :
  starts_ci (py "```sql") s = true -> startswith (py "```") s = true.
Proof.
  intros H. rewrite <- starts_ci_startswith.
  apply (starts_ci_app (py "```") (py "sql")). exact H.
Qed.

Lemma remove_fence_unchanged (lit s : str) :
  (forall t, starts_ci lit t = true -> startswith (py "```") t = true) ->
  contains (py "```") s = false ->
  remove_fence lit Scanning s = s.
Proof.
  intros Hlit. induction s as [|c s IH]; intros H; [reflexivity|].
  rewrite contains_eq in H. apply orb_false_elim in H. destruct H as [H1 H2].
  cbn [remove_fence]. destruct (starts_ci lit (c :: s)) eqn:E.
  - apply Hlit in E. congruence.
  - now rewrite (IH H2).
Qed.

(** A text without a code fence is left as it is by the cleaning step
    of the extractor. *)
Theorem clean_fences_unchanged (text : str) :
  contains (py "```") text = false -> clean_fences text = text.
Proof.
  intros H. unfold clean_fences.
  rewrite (remove_fence_unchanged (py "```sql") text); trivial.
  - apply remove_fence_unchanged; trivial.
    intros t Ht. now rewrite <- starts_ci_startswith.
  - exact starts_ci_sql_fence.
Qed.

Lemma clean_fences_unchanged_witness :
  clean_fences (py "SELECT * FROM users;") = py "SELECT * FROM users;".
Proof. apply clean_fences_unchanged. vm_compute. reflexivity. Defined.






Section ExtractorProvenance.
Context {U : UnicodeDB}.


End ExtractorProvenance.


(** ** The console of a request *)

Section PrintingProperties.
Context {U : UnicodeDB}.

Lemma print_bind (out : console) (line : console_line) (A : Type) (k : M A) :
  bind (print out line) (fun _ => k)
  = match out line with
    | None => k
    | Some msg => (Raise msg, [])
    end.
Proof.
  unfold print, bind, ret, raise. destruct (out line); [reflexivity|].
  now destruct k.
Qed.

Lemma ret_bind (A B : Type) (a : A) (k : A -> M B) : bind (ret a) k = k a.
Proof. unfold bind, ret. now destruct (k a). Qed.

(** Either the [print] of [_generate_sql] raises, or the text is that
    of [_generate_sql] without console. *)
Lemma generate_sql_printing_cases (decode : str -> outcome str)
      (out : console) (prompt : str) :
  (exists line msg,
      out line = Some msg
      /\ _generate_sql_printing decode out prompt = (Raise msg, []))
  \/ _generate_sql_printing decode out prompt
     = ret (_generate_sql decode prompt).
Proof.
  unfold _generate_sql_printing, _generate_sql.
  destruct (decode prompt) as [text | e].
  - destruct (contains prompt text); [|now right].
    destruct prompt as [|c prompt]; [|now right].
    rewrite print_bind.
    destruct (out (GenerationErrorLine (py "empty separator")))
      as [msg|] eqn:E;
      [left; eexists _, _; (split; [exact E | reflexivity]) | now right].
  - rewrite print_bind.
    destruct (out (GenerationErrorLine e)) as [msg|] eqn:E;
      [left; eexists _, _; (split; [exact E | reflexivity]) | now right].
Qed.

(** Either a [print] raises before anything else is done, or the
    request goes as without console. *)
Lemma convert_body_printing_cases (self : TextToSQL) (out : console)
      (question : str) :
  (exists line msg,
      out line = Some msg
      /\ convert_body_printing self out question = (Raise msg, []))
  \/ convert_body_printing self out question
     = convert_body (quiet self) question.
Proof.
  unfold convert_body_printing, convert_body. cbv zeta.
  change (model_loaded (quiet self)) with (model_loaded (self_env self)).
  change (build_prompt (quiet self)) with (build_prompt (self_env self)).
  change (generate_sql (quiet self)) with (_generate_sql (self_decode self)).
  change (_smart_fallback (quiet self)) with (_smart_fallback (self_env self)).
  change (validate_sql (quiet self)) with (validate_sql (self_env self)).
  change (execute_query (quiet self)) with (execute_query (self_env self)).
  destruct (model_loaded (self_env self)); cbn [negb]; [|now right].
  rewrite print_bind.
  destruct (out (IntentLine (_analyze_question_intent question)))
    as [msg|] eqn:E1;
    [left; eexists _, _; (split; [exact E1 | reflexivity])|].
  destruct (generate_sql_printing_cases (self_decode self) out
              (build_prompt (self_env self) question))
    as [(line & msg & Hout & ->) | ->];
    [left; exists line, msg; (split; [exact Hout | reflexivity])|].
  rewrite ret_bind.
  destruct (_generate_sql (self_decode self)
              (build_prompt (self_env self) question)) as [|c text].
  { rewrite print_bind.
    destruct (out GenerationFailedLine) as [msg|] eqn:E2;
    [left; eexists _, _; (split; [exact E2 | reflexivity]) | now right]. }
  rewrite print_bind.
  destruct (out (GeneratedLine (firstn 200 (c :: text)))) as [msg|] eqn:E2;
    [left; eexists _, _; (split; [exact E2 | reflexivity])|].
  destruct (_extract_sql_advanced (c :: text)) as [[|x sql]|].
  - rewrite print_bind.
    destruct (out ExtractionFailedLine) as [msg|] eqn:E3;
    [left; eexists _, _; (split; [exact E3 | reflexivity]) | now right].
  - rewrite print_bind.
    destruct (out (FinalSqlLine (_post_process_sql (x :: sql) question)))
      as [msg|] eqn:E3;
    [left; eexists _, _; (split; [exact E3 | reflexivity]) | now right].
  - rewrite print_bind.
    destruct (out ExtractionFailedLine) as [msg|] eqn:E3;
    [left; eexists _, _; (split; [exact E3 | reflexivity]) | now right].
Qed.

Lemma convert_printing_cases (self : TextToSQL) (out : console)
      (question : str) :
  (exists line msg,
      out line = Some msg
      /\ convert_printing self out question
         = ({| cr_success := false;
               cr_error := Some (py "转换过程出错: " ++ msg);
               cr_question := question; cr_sql := None; cr_result := None;
               cr_summary := None; cr_method := None;
               cr_intent_analysis := None |}, []))
  \/ convert_printing self out question = convert (quiet self) question.
Proof.
  destruct (convert_body_printing_cases self out question)
    as [(line & msg & Hout & E) | E]; unfold convert_printing, convert;
    rewrite E; [left; now exists line, msg | now right].
Qed.


(** With a console on which every line can be written, the request
    goes as [convert] without its prints. *)
Lemma convert_printing_quiet (self : TextToSQL) (out : console)
      (question : str) :
  (forall line, out line = None) ->
  convert_printing self out question = convert (quiet self) question.
Proof.
  intros Hout.
  destruct (convert_printing_cases self out question)
    as [(line & msg & E & _) | E]; [|exact E].
  rewrite Hout in E. discriminate E.
Qed.

Lemma convert_printing_question (self : TextToSQL) (out : console)
      (question : str) :
  cr_question (fst (convert_printing self out question)) = question.
Proof.
  destruct (convert_printing_cases self out question)
    as [(line & msg & _ & E) | E]; rewrite E; [reflexivity|].
  apply (convert_result_shape_cases (quiet self) question).
Qed.

End PrintingProperties.

(** ** The query endpoint *)

Section EndpointProperties.
Context {U : UnicodeDB}.

Lemma get_converter_cases (converter : option TextToSQL)
      (build : outcome TextToSQL * list db_event) (out : console)
      (self : TextToSQL) :
  fst (fst (get_converter converter build out)) = Ret (Some self)
  <-> converter = Some self \/ (converter = None /\ fst build = Ret self).
Proof.
  unfold get_converter.
  destruct converter as [c|]; cbn [fst].
  - split.
    + intros E. left. congruence.
    + intros [E | [E _]]; congruence.
  - destruct build as [[c | e] built]; cbn [fst].
    + split.
      * intros E. right. split; congruence.
      * intros [E | [_ E]]; congruence.
    + destruct (out (ConverterErrorLine e)); [|destruct (out ConverterHintLine)];
        cbn [fst]; (split; [discriminate | intros [E | [_ E]]; discriminate E]).
Qed.

Lemma get_converter_built (converter : option TextToSQL)
      (build : outcome TextToSQL * list db_event) (out : console) :
  snd (get_converter converter build out)
  = match converter with Some _ => [] | None => snd build end.
Proof.
  unfold get_converter.
  destruct converter as [c|]; [reflexivity|].
  destruct build as [[c | e] built]; [reflexivity|].
  destruct (out (ConverterErrorLine e)); [|destruct (out ConverterHintLine)];
    reflexivity.
Qed.

Lemma get_converter_global (converter : option TextToSQL)
      (build : outcome TextToSQL * list db_event) (out : console)
      (self : TextToSQL) :
  fst (fst (get_converter converter build out)) = Ret (Some self) ->
  snd (fst (get_converter converter build out)) = Some self.
Proof.
  unfold get_converter.
  destruct converter as [c|]; cbn [fst snd]; [congruence|].
  destruct build as [[c | e] built]; cbn [fst snd]; [congruence|].
  destruct (out (ConverterErrorLine e)); [|destruct (out ConverterHintLine)];
    cbn [fst snd]; discriminate.
Qed.

(** The status is 400, 200 or 500.  It is 400 exactly for a blank
    question, and then the converter is not asked for, nothing is
    submitted and the global is as before.  It is 200 exactly when the
    question is not blank, the converter is there, from an earlier
    request or built in this one, and the result of [convert] on the
    stripped question can be serialized: the document is then that
    result, which returns the stripped question, also when the
    conversion failed; the request has submitted the statements of the
    construction, none when the converter was there, then those of
    [convert]; and the global holds the converter afterwards.  A 500
    can come after the converter was built and after [convert] touched
    the storage object. *)
Theorem query_answers
    (converter : option TextToSQL)
    (build : outcome TextToSQL * list db_event)
    (out : console) (jsonify : ConversionResult -> option str)
    (body : request_body) :
  let json := fst (fst (fst (query converter build out jsonify body))) in
  let status := snd (fst (fst (query converter build out jsonify body))) in
  let converter' := snd (fst (query converter build out jsonify body)) in
  let events := snd (query converter build out jsonify body) in
  (status = 400%nat \/ status = 200%nat \/ status = 500%nat)
  /\ (status = 400%nat <->
      exists text, body = BodyQuestion text /\ strip text = [])
  /\ (status = 400%nat -> events = [] /\ converter' = converter)
  /\ (status = 200%nat <->
      exists text self,
        body = BodyQuestion text /\ strip text <> []
        /\ (converter = Some self
            \/ (converter = None /\ fst build = Ret self))
        /\ jsonify (fst (convert_printing self out (strip text))) = None)
  /\ (status = 200%nat ->
      exists text self,
        body = BodyQuestion text
        /\ json = JsonResult (fst (convert_printing self out (strip text)))
        /\ cr_question (fst (convert_printing self out (strip text)))
           = strip text
        /\ events
           = map Building
               (match converter with Some _ => [] | None => snd build end)
             ++ map Serving (snd (convert_printing self out (strip text)))
        /\ converter' = Some self).
Proof.
  cbv zeta. destruct body as [msg | text].
  - cbn [query fst snd].
    split; [auto|].
    split; [split; [discriminate | intros (t & E & _); discriminate E]|].
    split; [discriminate|].
    split; [split; [discriminate | intros (t & c & E & _); discriminate E]|].
    discriminate.
  - unfold query. destruct (strip text) as [|c question] eqn:Eq.
    + cbn [fst snd].
      split; [auto|]. split; [split; [now exists text | reflexivity]|].
      split; [now split|].
      split; [split; [discriminate|]|discriminate].
      intros (t & conv & E & Hne & _). injection E as <-. congruence.
    + pose proof (get_converter_cases converter build out) as Hcases.
      pose proof (get_converter_built converter build out) as Hbuilt.
      pose proof (get_converter_global converter build out) as Hglobal.
      destruct (get_converter converter build out)
        as [[[[self|] | msg] converter'] built]; cbn [fst snd] in *.
      * destruct (convert_printing self out (c :: question))
          as [result trace] eqn:Ec.
        destruct (jsonify result) as [msg|] eqn:Ej; cbn [fst snd].
        -- split; [auto|].
           split; [split; [discriminate|]|].
           { intros (t & E & Hb). injection E as <-. congruence. }
           split; [discriminate|].
           split; [split; [discriminate|]|discriminate].
           intros (t & self' & E & _ & Hc & Hj). injection E as <-.
           apply Hcases in Hc. injection Hc as <-.
           rewrite Eq, Ec in Hj. cbn [fst] in Hj. congruence.
        -- split; [auto|].
           split; [split; [discriminate|]|].
           { intros (t & E & Hb). injection E as <-. congruence. }
           split; [discriminate|].
           split.
           { split; [|reflexivity]. intros _. exists text, self.
             rewrite Eq, Ec. cbn [fst].
             split; [reflexivity|]. split; [discriminate|].
             split; [now apply Hcases | exact Ej]. }
           intros _. exists text, self. rewrite Eq.
           split; [reflexivity|].
           pose proof (convert_printing_question self out (c :: question))
             as Hq.
           rewrite Ec in *. cbn [fst snd] in *. subst built.
           split; [reflexivity|]. split; [exact Hq|].
           split; [reflexivity|]. now apply Hglobal.
      * split; [auto|].
        split; [split; [discriminate|]|].
        { intros (t & E & Hb). injection E as <-. congruence. }
        split; [discriminate|].
        split; [split; [discriminate|]|discriminate].
        intros (t & self' & _ & _ & Hc & _).
        apply Hcases in Hc. discriminate Hc.
      * split; [auto|].
        split; [split; [discriminate|]|].
        { intros (t & E & Hb). injection E as <-. congruence. }
        split; [discriminate|].
        split; [split; [discriminate|]|discriminate].
        intros (t & self' & _ & _ & Hc & _).
        apply Hcases in Hc. discriminate Hc.
Qed.

End EndpointProperties.

(** ** The security scan on the statements of the fallback *)

Section FallbackScan.
Context {U : UnicodeDB}.

Lemma find_all_false (A : Type) (f : A -> bool) (l : list A) :
  (forall x, In x l -> f x = false) -> find f l = None.
Proof.
  induction l as [|x l IH]; intros H; [reflexivity|].
  cbn [find]. rewrite (H x (or_introl eq_refl)).
  apply IH. intros y Hy. apply H. now right.
Qed.

Lemma digit_not_upper (c : N) :
  is_digit c = true -> is_ascii_upper c = false.
Proof.
  intros H.
  assert (Hr : 48 <= c <= 57 \/ 128 <= c).
  { unfold is_digit, is_ascii in H.
    destruct (N.ltb_spec c 128) as [Hlt | Hge]; [left | now right].
    apply andb_prop in H. destruct H as [H1 H2].
    apply N.leb_le in H1. apply N.leb_le in H2. now split. }
  unfold is_ascii_upper. cmp_cases; try reflexivity.
Qed.

Lemma upper_caseless (s : str) :
  (forall c, In c s -> upper_char c = [c]) -> upper s = s.
Proof.
  induction s as [|c s IH]; intros H; [reflexivity|].
  unfold upper in *. cbn [flat_map]. rewrite (H c (or_introl eq_refl)).
  cbn [app]. f_equal. apply IH. intros x Hx. apply H. now right.
Qed.

Lemma strip_price_statement (head digits : str) :
  In head price_heads -> strip (head ++ digits ++ py ";")
                         = head ++ digits ++ py ";".
Proof.
  intros Hhead. rewrite app_assoc. change (py ";") with [59].
  apply strip_snoc; [reflexivity|].
  apply drop_while_fixed.
  unfold price_heads in Hhead. cbn [In] in Hhead.
  destruct Hhead as [<- | [<- | []]]; reflexivity.
Qed.

(** In a Unicode database in which the decimal digits have no upper
    case, as in Unicode, the security scan of [validate_sql] finds no
    keyword in any statement of the fallback generator: the validator
    that the fallback path skips would not stop it at the scan. *)
Theorem generate_sql_by_intent_passes_scan
    (question : str) (intent : Intent) :
  (forall c, is_digit c = true -> upper_char c = [c]) ->
  find_dangerous (_generate_sql_by_intent question intent) = None.
Proof.
  intros Hcase.
  destruct (generate_sql_by_intent_shape_cases question intent)
    as [Hfixed | (head & digits & Hhead & Hne & Hdigits & ->)].
  - revert Hfixed. generalize (_generate_sql_by_intent question intent).
    intros sql Hsql. unfold fixed_statements in Hsql. cbn [In] in Hsql.
    repeat destruct Hsql as [<- | Hsql]; try contradiction;
      vm_compute; reflexivity.
  - unfold find_dangerous. rewrite (strip_price_statement _ _ Hhead).
    rewrite !upper_app.
    rewrite (upper_caseless digits).
    2:{ intros c Hc. apply Hcase.
        rewrite forallb_forall in Hdigits. now apply Hdigits. }
    assert (upper (py ";") = [59]) as -> by (vm_compute; reflexivity).
    apply find_all_false. intros kw Hkw.
    destruct (contains kw (upper head ++ digits ++ [59])) eqn:E;
      [|reflexivity].
    exfalso.
    destruct (dangerous_keywords_upper kw Hkw) as [Hkne Hup].
    apply (contains_around is_ascii_upper) in E; trivial.
    + unfold price_heads in Hhead. cbn [In] in Hhead.
      unfold dangerous_keywords in Hkw. cbn [In] in Hkw.
      destruct E as [E | E]; revert E;
        repeat destruct Hhead as [<- | Hhead]; try contradiction;
        repeat destruct Hkw as [<- | Hkw]; try contradiction;
        vm_compute; discriminate.
    + rewrite forallb_forall in *. intros c Hc.
      apply negb_true_iff, digit_not_upper. now apply Hdigits.
Qed.

End FallbackScan.

Lemma generate_sql_by_intent_passes_scan_witness :
  find_dangerous
    (_generate_sql_by_intent (py "drop table users 价格高于5")
       (_analyze_question_intent (py "drop table users 价格高于5")))
  = None.
Proof.
  apply generate_sql_by_intent_passes_scan.
  intros c H. unfold is_digit in H. unfold upper_char.
  destruct (is_ascii c) eqn:Ea.
  - unfold ascii_toupper, is_ascii_lower.
    apply andb_prop in H. destruct H as [H1 H2].
    apply N.leb_le in H1. apply N.leb_le in H2.
    destruct (N.leb_spec 97 c); [lia | reflexivity].
  - destruct (is_cjk c); [reflexivity | discriminate H].
Defined.
